(** * Metrics history of performance-graphs: decoder, normalizer, spike scan

    A shallow embedding of [src/src/app.jsx]: the [message] and [close]
    listeners that [load_hour] installs on a metrics1 channel, the
    [MetricsHistory] constructor and the spike scan of [MetricsHour].

    JavaScript numbers are IEEE 754 binary64 values; they are modelled by
    Rocq's primitive floats, which are the same format, so that sums,
    quotients, comparisons and NaN behave as they do in the browser.
    Timestamps are integral millisecond counts and are modelled in [Z]:
    below 2^53 they are exact in binary64, and [Math.floor] of their quotient
    by 5000 or by 3600000 is the integer quotient rounded down, [Z.div].
    Logging with [console.log] and the rendering of graphs are left out. *)

From Stdlib Require Import Floats ZArith Lia Bool Sorted.
From stdpp Require Import base list gmap strings.

Set Warnings "-inexact-float".
Set Default Proof Using "Type".
Local Open Scope Z_scope.

(** ** Values *)

Module Js.

(** An array slot of one of the four series: [null] or a number. *)
Abbreviation slot := (option float).

(** An element of a sample as [JSON.parse] returns it for the metrics1
    payload: [null] (no change), a number, or, for a metric with instances,
    the array of its per-instance values, each [null] or a number. *)
Inductive json : Type :=
  | JNull
  | JNum (x : float)
  | JInst (l : list slot).

(** An entry of the carry-forward array [current].  Writing past the end of a
    JavaScript array leaves holes, which read as [undefined]. *)
Inductive cval : Type :=
  | Undefined
  | Null
  | Num (x : float).

(** ToNumber on the primitives that [current] holds. *)
Definition to_number (v : cval) : float :=
  match v with
  | Undefined => nan
  | Null => 0%float
  | Num x => x
  end.

(** [Math.min] of two numbers: NaN if either is NaN, and -0 below +0. *)
Definition math_min (x y : float) : float :=
  if is_nan x || is_nan y then nan
  else if (x <? y)%float then x
  else if (y <? x)%float then y
  else if is_zero x && get_sign y then y
  else x.

(** [a[i] = v] on a JavaScript array: in range it overwrites, out of range it
    extends the array, leaving holes before index [i]. *)
Fixpoint array_set (a : list cval) (i : nat) (v : cval) : list cval :=
  match i, a with
  | O, [] => [v]
  | O, _ :: t => v :: t
  | S j, [] => Undefined :: array_set [] j v
  | S j, h :: t => h :: array_set t j v
  end.

(** [a[i]]: [undefined] outside the array. *)
Definition array_get (a : list cval) (i : nat) : cval :=
  default Undefined (a !! i).

(** [Array(n)]: a RangeError unless [n] is an array length (an integer in
    [0, 2^32 - 1]); the model's [n] is already an integer. *)
Definition valid_array_length (n : Z) : bool :=
  (0 <=? n) && (n <? 2 ^ 32).

End Js.
Export Js.

(** ** Exceptions and state *)

(** What a listener can raise.  [Unmodelled] is not a JavaScript exception: it
    marks a frame outside the metrics1 shape (an instance array delivered for
    a scalar metric), where the source would store the array in [current] and
    later pass it to [+], concatenating strings.  The model stops there. *)
Inductive exn : Type :=
  | TypeError
  | RangeError
  | Unmodelled.

Inductive outcome (A : Type) : Type :=
  | Ok (a : A)
  | Throw (e : exn).
Arguments Ok {A} a.
Arguments Throw {A} e.

(** A computation over a mutable state [S]: it returns a value or raises, and
    in both cases leaves the state it reached. *)
Definition M (S A : Type) : Type := S -> outcome A * S.

Section Monad.
Context {S : Type}.

Definition ret {A} (a : A) : M S A := fun s => (Ok a, s).

Definition bind {A B} (c : M S A) (k : A -> M S B) : M S B :=
  fun s =>
    match c s with
    | (Ok a, s') => k a s'
    | (Throw e, s') => (Throw e, s')
    end.

Definition throw {A} (e : exn) : M S A := fun s => (Throw e, s).
Definition get : M S S := fun s => (Ok s, s).
Definition put (s : S) : M S unit := fun _ => (Ok tt, s).

(** [a.forEach((x, i) => body)], counting indices from [i]. *)
Fixpoint for_each_from {A} (i : nat) (a : list A) (body : A -> nat -> M S unit)
  : M S unit :=
  match a with
  | [] => ret tt
  | x :: t => bind (body x i) (fun _ => for_each_from (Datatypes.S i) t body)
  end.

Definition for_each {A} (a : list A) (body : A -> nat -> M S unit) : M S unit :=
  for_each_from 0 a body.
End Monad.

Notation "x <- c ;; k" := (bind c (fun x => k))
  (at level 100, c at next level, right associativity).
Notation "c ;; k" := (bind c (fun _ => k))
  (at level 100, right associativity).

(** The state reached, whatever the outcome. *)
Definition state_after {S A} (r : outcome A * S) : S := snd r.

(** ** One load of one hour *)

(** The [data] object of [load_hour]: series name to array.  It starts as
    [{}]; the names in use are [use_cpu], [sat_cpu], [use_memory] and
    [sat_memory]. *)
Abbreviation hour_data := (gmap string (list slot)).

(** The variables a [load_hour] call closes over. *)
Record load : Type := mkLoad {
  current : list cval;
  data : hour_data;
}.

Definition new_load : load :=
  {| current := [Null; Null; Null; Null; Null; Null; Null]; data := ∅ |}.

Definition set_current (i : nat) (v : cval) : M load unit :=
  fun s => (Ok tt, {| current := array_set (current s) i v; data := data s |}).

Definition set_series (t : string) (a : list slot) : M load unit :=
  fun s => (Ok tt, {| current := current s; data := <[t := a]> (data s) |}).

(** [data[t].push(v)]: a TypeError while [data[t]] is undefined. *)
Definition push (t : string) (v : slot) : M load unit :=
  fun s =>
    match data s !! t with
    | Some a => (Ok tt, {| current := current s; data := <[t := a ++ [v]]> (data s) |})
    | None => (Throw TypeError, s)
    end.

(** [Array(n).fill(v)]. *)
Definition array_fill (n : Z) (v : slot) : M load (list slot) :=
  if valid_array_length n then ret (replicate (Z.to_nat n) v)
  else throw RangeError.

(** The series that the metadata branch copies [use_cpu] into. *)
Definition copied_series : list string :=
  ["sat_cpu"; "use_memory"; "sat_memory"]%string.

(** The metadata branch of the [message] listener ([batch] is not an array).
    [timestamp] is the requested hour, [batch_timestamp] the time of the first
    datum.  The result of [concat] is a new array that the source drops, so
    [data.use_cpu] keeps the [null] block only. *)
Definition on_meta (timestamp batch_timestamp : Z) : M load unit :=
  let nodata_offset := (batch_timestamp - timestamp) / 5000 in
  let nodata_minute_offset := nodata_offset / 12 * 12 in
  nulls <- array_fill nodata_minute_offset None ;;
  set_series "use_cpu" nulls ;;
  zeros <- array_fill (nodata_offset - nodata_minute_offset) (Some 0%float) ;;
  s <- get ;;
  match data s !! "use_cpu"%string with
  | None => throw TypeError
  | Some use_cpu =>
      let _dropped := use_cpu ++ zeros in
      for_each copied_series (fun t _ => set_series t use_cpu)
  end.

(** The decompression step for element [i] of a sample.  An instance array
    at a scalar channel is outside the model: the source stores the array in
    [current] and goes on, the model raises [Unmodelled].  Every property of
    data frames below that depends on it assumes [sample_shape]. *)
Definition decompress (sample : json) (i : nat) : M load unit :=
  if Nat.eqb i 3 then
    (* CPU load: 3 instances (15min, 1min, 5min) *)
    match sample with
    | JInst l =>
        match l !! 1%nat with
        | Some (Some x) => set_current i (Num x)
        | _ => ret tt
        end
    | _ => ret tt (* null is falsy; a number has no element 1 *)
    end
  else
    (* scalar values *)
    match sample with
    | JNull => ret tt
    | JNum x => set_current i (Num x)
    | JInst _ => throw Unmodelled
    end.

(** The four values pushed for one sample, from [current]. *)
Definition use_cpu_value (c : list cval) : float :=
  ((to_number (array_get c 0) + to_number (array_get c 1)
    + to_number (array_get c 2)) / 1000)%float.

Definition sat_cpu_value (c : list cval) : float :=
  (math_min (to_number (array_get c 3)) 10 / 10)%float.

Definition use_memory_value (c : list cval) : float :=
  (1 - to_number (array_get c 5) / to_number (array_get c 4))%float.

Definition sat_memory_value (c : list cval) : float :=
  if (1000 <? to_number (array_get c 6))%float then 1%float
  else if (1 <? to_number (array_get c 6))%float then 0.3%float
  else 0%float.

Definition push_row : M load unit :=
  s <- get ;;
  push "use_cpu" (Some (use_cpu_value (current s))) ;;
  push "sat_cpu" (Some (sat_cpu_value (current s))) ;;
  push "use_memory" (Some (use_memory_value (current s))) ;;
  push "sat_memory" (Some (sat_memory_value (current s))).

(** The body of [batch.forEach]. *)
Definition on_sample (samples : list json) : M load unit :=
  for_each samples decompress ;;
  push_row.

(** A parsed message: the metadata object, of which only [timestamp] is read,
    or an array of samples. *)
Inductive message : Type :=
  | Meta (batch_timestamp : Z)
  | Data (batch : list (list json)).

(** The [message] listener of the load for hour [timestamp]. *)
Definition on_message (timestamp : Z) (m : message) : M load unit :=
  match m with
  | Meta batch_timestamp => on_meta timestamp batch_timestamp
  | Data batch => for_each batch (fun samples _ => on_sample samples)
  end.

(** The messages of one subscription, in arrival order.  An exception ends
    the listener call it is raised in, not the subscription. *)
Definition run_messages (timestamp : Z) (ms : list message) (s : load) : load :=
  foldl (fun s m => state_after (on_message timestamp m s)) s ms.

(** ** The spike scan of [MetricsHour] *)

(** One [metrics-events] entry: the minute it is placed at, the time shown
    ([startTime + minute * 60000], before formatting) and its label. *)
Record spike : Type := mkSpike {
  sp_minute : nat;
  sp_time : Z;
  sp_label : string;
}.

Definition swap_spike (startTime : Z) (i : nat) : spike :=
  let minute := (i / 12)%nat in
  {| sp_minute := minute;
     sp_time := startTime + Z.of_nat minute * 60000;
     sp_label := "Swap" |}.

(** [data.sat_memory.forEach((value, i) => ...)] from index [i] on, with
    [prev_val] carried along. *)
Fixpoint spike_scan (startTime : Z) (i : nat) (prev_val : float) (a : list slot)
  : list spike :=
  match a with
  | [] => []
  | None :: t => spike_scan startTime (S i) prev_val t
  | Some value :: t =>
      (if (0.25 <? value - prev_val)%float then [swap_spike startTime i] else [])
      ++ spike_scan startTime (S i) value t
  end.

(** The indices at which the scan pushes an event: the same loop, keeping [i]
    where [spike_scan] keeps the event built from it. *)
Fixpoint spike_ticks (i : nat) (prev_val : float) (a : list slot) : list nat :=
  match a with
  | [] => []
  | None :: t => spike_ticks (S i) prev_val t
  | Some value :: t =>
      (if (0.25 <? value - prev_val)%float then [i] else [])
      ++ spike_ticks (S i) value t
  end.

(** The events of [MetricsHour]: nothing without data; the graphs, built
    first, read all four series, so a missing one is a TypeError. *)
Definition MetricsHour_events (startTime : Z) (d : option hour_data)
  : outcome (option (list spike)) :=
  match d with
  | None => Ok None
  | Some d =>
      match d !! "use_cpu"%string, d !! "sat_cpu"%string,
            d !! "use_memory"%string, d !! "sat_memory"%string with
      | Some _, Some _, Some _, Some sat_memory =>
          Ok (Some (spike_scan startTime 0 0%float sat_memory))
      | _, _, _, _ => Throw TypeError
      end
  end.

(** ** The [MetricsHistory] component *)

Definition MSEC_PER_H : Z := 3600000.

(** A channel opened by [load_hour]: the hour it asks for, the variables its
    listeners close over, and whether [metrics.close()] was called. *)
Record channel : Type := mkChannel {
  ch_timestamp : Z;
  ch_load : load;
  ch_closed : bool;
}.

(** The [console.error] calls of the [close] listener. *)
Inductive report : Type :=
  | FailedToLoad
  | ClosedWithoutData (timestamp : Z).

(** The component.  [this.data] maps an hour to a reference to the [data]
    object of a load; the reference is the position of that load's channel. *)
Record history : Type := mkHistory {
  start : Z;
  this_data : gmap Z nat;
  channels : list channel;
  errors : list report;
  renders : nat;
}.

(** [this.data[timestamp]], dereferenced. *)
Definition cached (h : history) (timestamp : Z) : option hour_data :=
  k ← this_data h !! timestamp; ch ← channels h !! k; Some (data (ch_load ch)).

Definition load_hour (timestamp : Z) (h : history) : history :=
  {| start := start h;
     this_data := this_data h;
     channels := channels h ++ [mkChannel timestamp new_load false];
     errors := errors h;
     renders := renders h |}.

(** The constructor, at time [now] (the value of [Date.now()]). *)
Definition constructor (now : Z) : history :=
  let current_hour := now / MSEC_PER_H * MSEC_PER_H in
  let h := {| start := current_hour; this_data := ∅; channels := [];
              errors := []; renders := 0 |} in
  load_hour (start h - MSEC_PER_H) (load_hour (start h) h).

(** The message of a [close] event; [problem] may be missing. *)
Record close_message : Type := mkClose { problem : option string }.

(** Truthiness of [message.problem]: a non-empty string. *)
Definition has_problem (c : close_message) : bool :=
  match problem c with
  | Some s => negb (String.eqb s "")
  | None => false
  end.

Definition console_error (r : report) : M history unit :=
  fun h => (Ok tt, {| start := start h; this_data := this_data h;
                      channels := channels h; errors := errors h ++ [r];
                      renders := renders h |}).

(** [this.data[timestamp] = data; this.setState({})] for the load at [k]. *)
Definition install (timestamp : Z) (k : nat) : M history unit :=
  fun h => (Ok tt, {| start := start h; this_data := <[timestamp := k]> (this_data h);
                      channels := channels h; errors := errors h;
                      renders := S (renders h) |}).

Definition close_channel (k : nat) : M history unit :=
  fun h => (Ok tt, {| start := start h; this_data := this_data h;
                      channels := alter (fun ch => mkChannel (ch_timestamp ch) (ch_load ch) true)
                                        k (channels h);
                      errors := errors h; renders := renders h |}).

(** The [close] listener of the load at position [k]. *)
Definition on_close (k : nat) (c : close_message) : M history unit :=
  h <- get ;;
  match channels h !! k with
  | None => ret tt
  | Some ch =>
      (if has_problem c then console_error FailedToLoad
       else
         match data (ch_load ch) !! "use_memory"%string with
         | None => throw TypeError
         | Some use_memory =>
             if Nat.eqb (length use_memory) 0
             then console_error (ClosedWithoutData (ch_timestamp ch))
             else install (ch_timestamp ch) k
         end) ;;
      close_channel k
  end.

(** What the transport delivers: a message or the close of channel [k]. *)
Inductive event : Type :=
  | Message (k : nat) (m : message)
  | Close (k : nat) (c : close_message).

Definition deliver (k : nat) (m : message) (h : history) : history :=
  {| start := start h; this_data := this_data h;
     channels := alter (fun ch =>
                   mkChannel (ch_timestamp ch)
                     (state_after (on_message (ch_timestamp ch) m (ch_load ch)))
                     (ch_closed ch)) k (channels h);
     errors := errors h; renders := renders h |}.

Definition step (h : history) (e : event) : history :=
  match e with
  | Message k m => deliver k m h
  | Close k c => state_after (on_close k c h)
  end.

Definition run (h : history) (es : list event) : history := foldl step h es.

(** ** [SvgGraph] and the graphs of [MetricsHour] *)

(** The svg element of [SvgGraph].  The [points] attribute is kept as the list
    of vertices that its text spells, each an x and a y, and the [viewBox]
    attribute ["0 0 1 h"] as its height [h]. *)
Record svg : Type := mkSvg {
  svg_class : string;
  svg_height : Z;
  svg_transform : string;
  svg_points : list (Z * float);
}.

(** [data.map((value, index) => index.toString() + "," + value.toString())]
    from index [i] on: [toString] of [null] is a TypeError. *)
Fixpoint vertices_from (i : nat) (data : list slot) : outcome (list (Z * float)) :=
  match data with
  | [] => Ok []
  | None :: _ => Throw TypeError
  | Some value :: t =>
      match vertices_from (S i) t with
      | Ok l => Ok ((Z.of_nat i, value) :: l)
      | Throw e => Throw e
      end
  end.

(** [data[0] === null] and [data[data.length - 1] === null]; both are
    [undefined] on an empty array. *)
Definition first_is_null (data : list slot) : bool :=
  match head data with Some None => true | _ => false end.

Definition last_is_null (data : list slot) : bool :=
  match last data with Some None => true | _ => false end.

Definition SvgGraph (category : string) (data : list slot) : outcome (option svg) :=
  (* avoid rendering completely blank graphs for times without data *)
  if first_is_null data && last_is_null data then Ok None
  else
    match vertices_from 0 data with
    | Throw e => Throw e
    | Ok l =>
        let points :=
          (0, 0%float) :: l ++ [(Z.of_nat (length data) - 1, 0%float)] in
        let transform :=
          if String.eqb category "utilization"
          then "matrix(0,1,-1,0,1,0)"%string else "matrix(0,1,1,0,0,0)"%string in
        Ok (Some {| svg_class := category;
                    svg_height := Z.of_nat (length data) - 1;
                    svg_transform := transform;
                    svg_points := points |})
    end.

(** [a.slice(from, to)] for array indices. *)
Definition slice (a : list slot) (from to : nat) : list slot :=
  take (to - from) (drop from a).

(** One [metrics-data] element: the resource, the minute, and the data given
    to its utilization and its saturation [SvgGraph]. *)
Record graph : Type := mkGraph {
  g_resource : string;
  g_minute : nat;
  g_utilization : list slot;
  g_saturation : list slot;
}.

Definition push_graph (g : graph) : M (list graph) unit :=
  fun graphs => (Ok tt, graphs ++ [g]).

(** The loop that computes the graphs; the state is the [graphs] array.
    Reading a series that [data] lacks is a TypeError. *)
Definition MetricsHour_graphs (d : hour_data) : M (list graph) unit :=
  for_each (seq 0 60) (fun minute _ =>
    let dataOffset := (minute * 12)%nat in
    for_each ["cpu"; "memory"]%string (fun resource _ =>
      match d !! ("use_" +:+ resource), d !! ("sat_" +:+ resource) with
      | Some use, Some sat =>
          push_graph
            {| g_resource := resource; g_minute := minute;
               g_utilization := slice use dataOffset (dataOffset + 12);
               g_saturation := slice sat dataOffset (dataOffset + 12) |}
      | _, _ => throw TypeError
      end)).

(** [MetricsHour]: nothing without data, else the events and the graphs. *)
Definition MetricsHour (startTime : Z) (d : option hour_data)
  : outcome (option (list spike * list graph)) :=
  match d with
  | None => Ok None
  | Some d =>
      match MetricsHour_graphs d [] with
      | (Throw e, _) => Throw e
      | (Ok _, graphs) =>
          match d !! "sat_memory"%string with
          | None => Throw TypeError
          | Some sat_memory =>
              Ok (Some (spike_scan startTime 0 0%float sat_memory, graphs))
          end
      end
  end.

(** [render]: the hour that started at [start] and the one before. *)
Definition render (h : history)
  : outcome (option (list spike * list graph))
    * outcome (option (list spike * list graph)) :=
  (MetricsHour (start h) (cached h (start h)),
   MetricsHour (start h - MSEC_PER_H) (cached h (start h - MSEC_PER_H))).

(** ** Vocabulary of the properties *)

(** The leading gap in ticks, and its whole minutes in ticks. *)
Definition gap_ticks (timestamp batch_timestamp : Z) : Z :=
  (batch_timestamp - timestamp) / 5000.

Definition gap_minutes (timestamp batch_timestamp : Z) : Z :=
  gap_ticks timestamp batch_timestamp / 12 * 12.

(** The four series of [d] are the arrays [a1], [a2], [a3] and [a4]. *)
Definition allocated (d : hour_data) (a1 a2 a3 a4 : list slot) : Prop :=
  d !! "use_cpu"%string = Some a1 /\ d !! "sat_cpu"%string = Some a2 /\
  d !! "use_memory"%string = Some a3 /\ d !! "sat_memory"%string = Some a4.

(** All four series hold the array [a]. *)
Definition all_series (d : hour_data) (a : list slot) : Prop :=
  allocated d a a a a.

(** The four series exist and have one length. *)
Definition same_length (d : hour_data) : Prop :=
  exists a1 a2 a3 a4,
    allocated d a1 a2 a3 a4 /\
    length a1 = length a2 /\ length a2 = length a3 /\ length a3 = length a4.

(** A sample of the metrics1 shape: only the metric with instances, at index
    3, may carry an instance array.  [sample_shape_from i] checks a sample
    whose first element has index [i]. *)
Fixpoint sample_shape_from (i : nat) (sample : list json) : bool :=
  match sample with
  | [] => true
  | JInst _ :: t => Nat.eqb i 3 && sample_shape_from (S i) t
  | _ :: t => sample_shape_from (S i) t
  end.

Definition sample_shape (sample : list json) : bool :=
  sample_shape_from 0 sample.

(** An hour's data with the four series given. *)
Definition hour_of (a1 a2 a3 a4 : list slot) : hour_data :=
  <["use_cpu"%string := a1]> (<["sat_cpu"%string := a2]>
    (<["use_memory"%string := a3]> (<["sat_memory"%string := a4]> ∅))).

(** What element [x] of a sample delivers when it sits at channel [c]: the
    1-minute instance (element 1 of the tuple) for the load channel 3, the
    number itself for the other channels, nothing for [null]. *)
Definition delivered_by (c : nat) (x : json) : option float :=
  match x with
  | JNull => None
  | JNum v => if Nat.eqb c 3 then None else Some v
  | JInst l => if Nat.eqb c 3 then mjoin (l !! 1%nat) else None
  end.

(** The value a sample delivers for channel [c], if any. *)
Definition delivered (c : nat) (sample : list json) : option float :=
  sample !! c ≫= delivered_by c.

(** The most recently delivered value for channel [c] in a run of samples
    listed newest first. *)
Fixpoint latest (c : nat) (newest_first : list (list json)) : option float :=
  match newest_first with
  | [] => None
  | sample :: older =>
      match delivered c sample with
      | Some v => Some v
      | None => latest c older
      end
  end.

(** The samples of one subscription, one after the other. *)
Definition run_samples (samples : list (list json)) (s : load) : load :=
  foldl (fun s sample => state_after (on_sample sample s)) s samples.

(** An hour used in the examples. *)
Definition example_hour : Z := 444444 * MSEC_PER_H.

(** The sample of the end-to-end scenario. *)
Definition example_sample : list json :=
  [JNum 10; JNum 10; JNum 10; JInst [None; Some 1.2%float; None];
   JNum 8e9; JNum 4e9; JNum 0].

(** The memory-saturation series of the spike illustration. *)
Definition illustration : list slot :=
  [Some 0; Some 0; Some 0.3; Some 0.3; Some 0.6; Some 0.2; Some 0.6]%float.

(** Two data frames: the end-to-end sample, then one that changes the user
    rate only. *)
Definition example_frames : list (list (list json)) :=
  [[example_sample]; [[JNull; JNum 5]]].

(** A load whose metadata frame reported no gap. *)
Definition example_load : load :=
  state_after (on_meta example_hour example_hour new_load).

(** The component, constructed half an hour into the example hour. *)
Definition example_history : history := constructor (example_hour + 1800000).

(** The three levels of memory saturation. *)
Definition level (v : float) : Prop := (v = 0 \/ v = 0.3 \/ v = 1)%float.

(** The indices at which a series steps up: the value is above the one
    before it, no-data slots apart, and above [prev_val] at the start. *)
Fixpoint rises (i : nat) (prev_val : float) (a : list slot) : list nat :=
  match a with
  | [] => []
  | None :: t => rises (S i) prev_val t
  | Some value :: t =>
      (if (prev_val <? value)%float then [i] else []) ++ rises (S i) value t
  end.

Definition is_message (e : event) : bool :=
  match e with Message _ _ => true | Close _ _ => false end.

(** The messages among the events that are for channel [k], in order. *)
Definition messages_for (k : nat) (es : list event) : list message :=
  omap (fun e => match e with
                 | Message j m => if Nat.eqb j k then Some m else None
                 | Close _ _ => None
                 end) es.

(** The four series names. *)
Definition series_names : list string :=
  ["use_cpu"; "sat_cpu"; "use_memory"; "sat_memory"]%string.

(** A load that received its metadata frame and one sample. *)
Definition loaded_example : load :=
  run_messages example_hour [Meta example_hour; Data [example_sample]] new_load.

(** The entries of the seven channels are never holes. *)
Definition channels_defined (c : list cval) : Prop :=
  forall i, (i < 7)%nat -> array_get c i <> Undefined.

(** The four series of [d] are the block [g] followed by [n] numbers each,
    and the numbers of memory saturation are levels. *)
Definition rows_after (g : list slot) (n : nat) (d : hour_data) : Prop :=
  exists r1 r2 r3 r4 : list float,
    allocated d (g ++ map Some r1) (g ++ map Some r2)
      (g ++ map Some r3) (g ++ map Some r4) /\
    length r1 = n /\ length r2 = n /\ length r3 = n /\ length r4 = n /\
    Forall level r4.

(** The two graphs of a minute, from the four series. *)
Definition minute_graphs (a1 a2 a3 a4 : list slot) (minute : nat) : list graph :=
  [mkGraph "cpu" minute
     (slice a1 (minute * 12) (minute * 12 + 12))
     (slice a2 (minute * 12) (minute * 12 + 12));
   mkGraph "memory" minute
     (slice a3 (minute * 12) (minute * 12 + 12))
     (slice a4 (minute * 12) (minute * 12 + 12))].

(** The channel after the messages [ms] were delivered to it. *)
Definition channel_after (ms : list message) (ch : channel) : channel :=
  mkChannel (ch_timestamp ch)
    (run_messages (ch_timestamp ch) ms (ch_load ch)) (ch_closed ch).

(** The events of one successful load on channel [k]: the metadata frame,
    the data frames, the close. *)
Definition load_events (k : nat) (batch_timestamp : Z)
    (frames : list (list (list json))) (c : close_message) : list event :=
  Message k (Meta batch_timestamp)
  :: map (fun batch => Message k (Data batch)) frames ++ [Close k c].

(** A message whose samples all have the metrics1 shape. *)
Definition message_shape (m : message) : bool :=
  match m with
  | Meta _ => true
  | Data batch => forallb sample_shape batch
  end.

(** * Properties *)

(** ** The monad *)

Ltac unfold_m :=
  unfold on_sample, push_row, for_each, bind, ret, get, put, throw,
    set_series, set_current, state_after in *; simpl in *.

Lemma bind_ok {S A B} (c : M S A) (k : A -> M S B) s a s' :
  c s = (Ok a, s') -> bind c k s = k a s'.
Proof. intros E. unfold bind. now rewrite E. Qed.

Lemma bind_throw {S A B} (c : M S A) (k : A -> M S B) s e s' :
  c s = (Throw e, s') -> bind c k s = (Throw e, s').
Proof. intros E. unfold bind. now rewrite E. Qed.

(** ** The metadata frame *)

Lemma remainder_is_array_length n :
  valid_array_length (n - n / 12 * 12) = true.
Proof.
  unfold valid_array_length.
  pose proof (Z.mod_pos_bound n 12 ltac:(lia)) as B.
  rewrite Z.mod_eq in B by lia.
  replace (12 * (n / 12)) with (n / 12 * 12) in B by lia.
  apply andb_true_iff; split; [apply Z.leb_le | apply Z.ltb_lt]; lia.
Qed.

(** A metadata frame with a representable gap seeds all four series with the
    whole-minute [null] block, and nothing else. *)
Lemma on_meta_fills timestamp batch_timestamp s :
  valid_array_length (gap_minutes timestamp batch_timestamp) = true ->
  exists s',
    on_meta timestamp batch_timestamp s = (Ok tt, s') /\
    current s' = current s /\
    all_series (data s')
      (replicate (Z.to_nat (gap_minutes timestamp batch_timestamp)) None).
Proof.
  intros V. unfold on_meta, array_fill.
  fold (gap_ticks timestamp batch_timestamp).
  fold (gap_minutes timestamp batch_timestamp).
  rewrite V, remainder_is_array_length.
  unfold copied_series. unfold_m. rewrite lookup_insert_eq. simpl.
  eexists; split; [reflexivity|]. split; [reflexivity|].
  unfold all_series; simpl. repeat split; by simplify_map_eq.
Qed.

(** A metadata frame whose gap is not an array length raises before it
    assigns anything. *)
Lemma on_meta_range_error timestamp batch_timestamp s :
  valid_array_length (gap_minutes timestamp batch_timestamp) = false ->
  on_meta timestamp batch_timestamp s = (Throw RangeError, s).
Proof.
  intros V. unfold on_meta, array_fill.
  fold (gap_ticks timestamp batch_timestamp).
  fold (gap_minutes timestamp batch_timestamp).
  rewrite V. reflexivity.
Qed.

Lemma gap_minutes_valid timestamp batch_timestamp :
  0 <= batch_timestamp - timestamp < 5000 * 2 ^ 32 ->
  valid_array_length (gap_minutes timestamp batch_timestamp) = true.
Proof.
  intros [L U]. unfold valid_array_length, gap_minutes, gap_ticks.
  assert (0 <= (batch_timestamp - timestamp) / 5000 < 2 ^ 32) as [L1 U1].
  { split; [apply Z.div_pos; lia | apply Z.div_lt_upper_bound; lia]. }
  pose proof (Z.mod_pos_bound ((batch_timestamp - timestamp) / 5000) 12 ltac:(lia)) as B.
  rewrite Z.mod_eq in B by lia.
  apply andb_true_iff; split; [apply Z.leb_le | apply Z.ltb_lt]; lia.
Qed.

(** ** Samples *)

Lemma push_ok t v s a :
  data s !! t = Some a ->
  push t v s = (Ok tt, mkLoad (current s) (<[t := a ++ [v]]> (data s))).
Proof. intros E. unfold push. now rewrite E. Qed.

Lemma hour_of_allocated a1 a2 a3 a4 : allocated (hour_of a1 a2 a3 a4) a1 a2 a3 a4.
Proof. unfold allocated, hour_of. repeat split; by simplify_map_eq. Qed.

(** With the four series in place, a row is pushed without an exception: one
    value at the end of each series, [current] untouched. *)
Lemma push_row_allocated s a1 a2 a3 a4 :
  allocated (data s) a1 a2 a3 a4 ->
  exists d',
    push_row s = (Ok tt, mkLoad (current s) d') /\
    allocated d'
      (a1 ++ [Some (use_cpu_value (current s))])
      (a2 ++ [Some (sat_cpu_value (current s))])
      (a3 ++ [Some (use_memory_value (current s))])
      (a4 ++ [Some (sat_memory_value (current s))]).
Proof.
  intros (E1 & E2 & E3 & E4). unfold push_row.
  rewrite (bind_ok get _ s s s) by reflexivity.
  erewrite bind_ok; [| apply push_ok; eassumption ]. cbn [current data].
  erewrite bind_ok; [| apply push_ok; cbn [data]; by simplify_map_eq ].
  cbn [current data].
  erewrite bind_ok; [| apply push_ok; cbn [data]; by simplify_map_eq ].
  cbn [current data].
  erewrite push_ok by (cbn [data]; by simplify_map_eq). cbn [current data].
  eexists; split; [reflexivity|].
  unfold allocated. repeat split; by simplify_map_eq.
Qed.

(** Decompression never touches [data]. *)
Lemma decompress_data sample i s :
  data (state_after (decompress sample i s)) = data s.
Proof.
  unfold decompress.
  destruct (Nat.eqb i 3); destruct sample as [| x | l]; try reflexivity.
  destruct (l !! 1%nat) as [[x|]|]; reflexivity.
Qed.

Lemma for_each_decompress_data sample i s :
  data (state_after (for_each_from i sample decompress s)) = data s.
Proof.
  revert i s. induction sample as [| x t IH]; intros i s; [reflexivity|].
  cbn [for_each_from]. unfold bind.
  pose proof (decompress_data x i s) as D.
  destruct (decompress x i s) as [[[]|e] s1]; unfold state_after in *; simpl in *.
  - rewrite <- D. apply IH.
  - exact D.
Qed.

(** A sample of the metrics1 shape is decompressed without an exception. *)
Lemma for_each_decompress_ok sample i s :
  sample_shape_from i sample = true ->
  fst (for_each_from i sample decompress s) = Ok tt.
Proof.
  revert i s. induction sample as [| x t IH]; intros i s W; [reflexivity|].
  cbn [for_each_from]. unfold bind, decompress.
  destruct x as [| x | l]; cbn [sample_shape_from] in W.
  - destruct (Nat.eqb i 3); simpl; now apply IH.
  - destruct (Nat.eqb i 3); simpl; now apply IH.
  - apply andb_true_iff in W as [W3 W]. rewrite W3.
    destruct (l !! 1%nat) as [[x|]|]; simpl; now apply IH.
Qed.

(** One sample of the metrics1 shape, with the four series in place: one
    value is appended to each series. *)
Lemma on_sample_allocated sample s a1 a2 a3 a4 :
  allocated (data s) a1 a2 a3 a4 ->
  sample_shape sample = true ->
  exists v1 v2 v3 v4 s',
    on_sample sample s = (Ok tt, s') /\
    allocated (data s') (a1 ++ [Some v1]) (a2 ++ [Some v2])
      (a3 ++ [Some v3]) (a4 ++ [Some v4]).
Proof.
  intros A W. unfold on_sample, for_each.
  pose proof (for_each_decompress_ok sample 0 s W) as O.
  pose proof (for_each_decompress_data sample 0 s) as D.
  destruct (for_each_from 0 sample decompress s) as [r s1] eqn:E.
  simpl in O; subst r. unfold state_after in D; simpl in D.
  rewrite (bind_ok _ _ _ _ _ E).
  rewrite <- D in A.
  destruct (push_row_allocated s1 _ _ _ _ A) as (d' & P & A').
  rewrite P. do 4 eexists. eexists. split; [reflexivity|]. exact A'.
Qed.

(** Whatever the sample, and whatever the outcome, the four series keep one
    length. *)
Lemma on_sample_same_length sample s :
  same_length (data s) -> same_length (data (state_after (on_sample sample s))).
Proof.
  intros (a1 & a2 & a3 & a4 & A & L1 & L2 & L3). unfold on_sample, for_each.
  pose proof (for_each_decompress_data sample 0 s) as D.
  unfold bind.
  destruct (for_each_from 0 sample decompress s) as [[[]|e] s1];
    unfold state_after in *; simpl in *.
  - rewrite <- D in A.
    destruct (push_row_allocated s1 _ _ _ _ A) as (d' & P & A').
    rewrite P. simpl. do 4 eexists. split; [exact A'|].
    rewrite !length_app. simpl. lia.
  - rewrite D. do 4 eexists. eauto.
Qed.

Lemma for_each_on_sample_same_length batch i s :
  same_length (data s) ->
  same_length
    (data (state_after (for_each_from i batch (fun samples _ => on_sample samples) s))).
Proof.
  revert i s. induction batch as [| x t IH]; intros i s L; [exact L|].
  cbn [for_each_from]. unfold bind.
  pose proof (on_sample_same_length x s L) as L'.
  destruct (on_sample x s) as [[[]|e] s1]; unfold state_after in *; simpl in *.
  - now apply IH.
  - exact L'.
Qed.

Lemma all_series_same_length d a : all_series d a -> same_length d.
Proof. intros A. exists a, a, a, a. split; [exact A | auto]. Qed.

Lemma on_meta_outcome timestamp batch_timestamp s :
  fst (on_meta timestamp batch_timestamp s) = Ok tt ->
  valid_array_length (gap_minutes timestamp batch_timestamp) = true.
Proof.
  intros O.
  destruct (valid_array_length (gap_minutes timestamp batch_timestamp)) eqn:V;
    [reflexivity|].
  rewrite (on_meta_range_error _ _ _ V) in O. discriminate.
Qed.

Lemma on_message_same_length timestamp m s :
  same_length (data s) ->
  same_length (data (state_after (on_message timestamp m s))).
Proof.
  intros L. destruct m as [bt | batch]; cbn [on_message].
  - destruct (valid_array_length (gap_minutes timestamp bt)) eqn:V.
    + destruct (on_meta_fills timestamp bt s V) as (s' & E & _ & A).
      rewrite E. eapply all_series_same_length, A.
    + now rewrite (on_meta_range_error _ _ _ V).
  - now apply for_each_on_sample_same_length.
Qed.

Lemma run_messages_same_length timestamp ms s :
  same_length (data s) -> same_length (data (run_messages timestamp ms s)).
Proof.
  revert s. induction ms as [| m t IH]; intros s L; [exact L|].
  apply IH. now apply on_message_same_length.
Qed.

(** ** Order on binary64 values *)

Lemma compare_cont_swap p q :
  PosDef.Pos.compare_cont Eq q p = CompOpp (PosDef.Pos.compare_cont Eq p q).
Proof. exact (eq_sym (Pos.compare_cont_antisym p q Eq)). Qed.

(** Two comparable values of which the first is not below the second. *)
Lemma SFleb_of_not_SFltb x y :
  SFltb x y = false -> SFcompare x y <> None -> SFleb y x = true.
Proof.
  unfold SFltb, SFleb.
  destruct x as [sx | sx | | sx mx ex], y as [sy | sy | | sy my ey]; simpl;
    try congruence;
    repeat match goal with s : bool |- _ => destruct s end; simpl; try congruence;
    rewrite (Z.compare_antisym ey ex), (compare_cont_swap mx my);
    destruct (ey ?= ex)%Z; simpl; try congruence;
    destruct (PosDef.Pos.compare_cont Eq mx my); simpl; congruence.
Qed.

(** A rate above 1 that is not above 1000 is at most 1000 (it is not NaN). *)
Lemma rate_at_most_1000 (x : float) :
  (1000 <? x)%float = false -> (1 <? x)%float = true -> (x <=? 1000)%float = true.
Proof.
  rewrite !ltb_spec, leb_spec. intros H1 H2.
  apply SFleb_of_not_SFltb; [exact H1|].
  intros N. unfold SFltb in H2.
  destruct (Prim2SF x) as [s | s | | s m e]; simpl in *; discriminate.
Qed.

(** Two comparable values, the first not a zero, neither below the other:
    they are the same value. *)
Lemma SFcompare_neither_below x y :
  SFltb x y = false -> SFltb y x = false -> SFcompare x y <> None ->
  match x with S754_zero _ => False | _ => True end -> x = y.
Proof.
  unfold SFltb.
  destruct x as [sx | sx | | sx mx ex], y as [sy | sy | | sy my ey]; simpl;
    try congruence; try tauto;
    repeat match goal with s : bool |- _ => destruct s end; simpl; try congruence.
  all: intros H1 H2 _ _.
  all: destruct (ex ?= ey)%Z eqn:E;
    rewrite (Z.compare_antisym ex ey), E in H2; simpl in *; try discriminate.
  all: apply Z.compare_eq in E; subst.
  all: destruct (PosDef.Pos.compare_cont Eq mx my) eqn:C.
  all: try discriminate.
  all: try (apply Pos.compare_eq in C; subst; reflexivity).
  all: change (PosDef.Pos.compare_cont Eq my mx) with (Pos.compare my mx) in H2;
       change (PosDef.Pos.compare_cont Eq mx my) with (Pos.compare mx my) in C;
       rewrite (Pos.compare_antisym mx my), C in H2; simpl in H2; discriminate.
Qed.

(** [Math.min(x, 10)] is [x] below 10 and 10 from there on; NaN stays NaN. *)
Lemma math_min_10 x :
  math_min x 10
  = if is_nan x then nan else if (x <? 10)%float then x else 10%float.
Proof.
  unfold math_min. change (is_nan 10) with false. rewrite orb_false_r.
  destruct (is_nan x) eqn:N; [reflexivity|].
  destruct (x <? 10)%float eqn:L; [reflexivity|].
  destruct (10 <? x)%float eqn:G; [reflexivity|].
  change (get_sign 10) with false. rewrite andb_false_r.
  apply Prim2SF_inj.
  rewrite ltb_spec in L, G. unfold is_nan in N. rewrite FloatAxioms.eqb_spec in N.
  apply negb_false_iff in N.
  apply SFcompare_neither_below; try assumption.
  - unfold SFeqb in N. unfold SFltb in L.
    destruct (Prim2SF x); simpl in *; discriminate.
  - unfold SFltb in L. destruct (Prim2SF x); simpl in *; try discriminate; exact I.
Qed.

(** ** The normalizer *)

(** C1. For a carry-forward state whose seven channels hold the numbers nice,
    user, sys, load_1min, total, available and swap rate, the normalizer
    appends to the four series exactly: (nice + user + sys) / 1000, unclamped;
    min(load_1min, 10) / 10, the minimum spelled out as load_1min when it is
    below 10 and 10 otherwise (NaN for a NaN load); 1 - available / total;
    and 1 if the swap rate is above 1000, 0.3 if it is above 1 and at most
    1000, else 0. *)
Theorem normalizer_formulas
    (nice user sys load_1min total available swap : float)
    (rest : list cval) (d : hour_data) (a1 a2 a3 a4 : list slot) :
  allocated d a1 a2 a3 a4 ->
  let c := [Num nice; Num user; Num sys; Num load_1min;
            Num total; Num available; Num swap] ++ rest in
  exists d',
    push_row (mkLoad c d) = (Ok tt, mkLoad c d') /\
    allocated d'
      (a1 ++ [Some ((nice + user + sys) / 1000)%float])
      (a2 ++ [Some ((if is_nan load_1min then nan
                     else if (load_1min <? 10)%float then load_1min
                          else 10%float) / 10)%float])
      (a3 ++ [Some (1 - available / total)%float])
      (a4 ++ [Some (if (1000 <? swap)%float then 1%float
                    else if (1 <? swap)%float && (swap <=? 1000)%float
                         then 0.3%float else 0%float)]).
Proof.
  intros A c.
  destruct (push_row_allocated (mkLoad c d) _ _ _ _ A) as (d' & P & A').
  exists d'. split; [exact P|].
  replace (if (1000 <? swap)%float then 1%float
           else if (1 <? swap)%float && (swap <=? 1000)%float
                then 0.3%float else 0%float)
    with (sat_memory_value c);
    [rewrite <- (math_min_10 load_1min); exact A'|].
  unfold sat_memory_value, c, array_get; simpl.
  destruct (1000 <? swap)%float eqn:H1; [reflexivity|].
  destruct (1 <? swap)%float eqn:H2; [|reflexivity].
  now rewrite (rate_at_most_1000 swap H1 H2).
Qed.

Lemma normalizer_formulas_witness :
  exists d',
    push_row (mkLoad [Num 10; Num 10; Num 10; Num 1.2; Num 8e9; Num 4e9; Num 0]
                (hour_of [] [] [] []))
    = (Ok tt, mkLoad [Num 10; Num 10; Num 10; Num 1.2; Num 8e9; Num 4e9; Num 0] d') /\
    allocated d' [Some 0.03%float] [Some 0.12%float] [Some 0.5%float] [Some 0%float].
Proof.
  exact (normalizer_formulas 10 10 10 1.2 8e9 4e9 0 [] (hour_of [] [] [] [])
           [] [] [] [] (hour_of_allocated [] [] [] [])).
Defined.




(** ** The leading gap *)

(** C2, on the code. The first datum comes 75 s after the requested hour: 15
    ticks, of which 12 are a whole minute. The claim asks for 12 no-data
    slots and then 3 zero slots. The listener builds the zeros with [concat]
    and drops the result: each series holds the 12 no-data slots and no
    zero. *)
Theorem gap_fill_has_no_zero_ticks :
  gap_ticks example_hour (example_hour + 75000) = 15 /\
  gap_minutes example_hour (example_hour + 75000) = 12 /\
  fst (on_meta example_hour (example_hour + 75000) new_load) = Ok tt /\
  all_series
    (data (state_after (on_meta example_hour (example_hour + 75000) new_load)))
    (replicate 12 None) /\
  replicate 12 (@None float) <> replicate 12 None ++ replicate 3 (Some 0%float).
Proof.
  split; [reflexivity|]. split; [reflexivity|]. split; [reflexivity|].
  split; [repeat split; reflexivity | discriminate].
Qed.

(** ** Equal lengths *)

(** C10. Once a metadata frame has been processed, the four series are
    copies of one array; whatever messages follow, they keep one length; and
    a sample of the metrics1 shape appends exactly one value to each. *)
Theorem series_stay_aligned (timestamp batch_timestamp : Z) (s0 : load)
    (ms : list message) :
  fst (on_meta timestamp batch_timestamp s0) = Ok tt ->
  let s1 := state_after (on_meta timestamp batch_timestamp s0) in
  (exists a, all_series (data s1) a) /\
  same_length (data (run_messages timestamp ms s1)) /\
  (forall sample s a1 a2 a3 a4,
      allocated (data s) a1 a2 a3 a4 ->
      sample_shape sample = true ->
      exists v1 v2 v3 v4 s',
        on_sample sample s = (Ok tt, s') /\
        allocated (data s') (a1 ++ [Some v1]) (a2 ++ [Some v2])
          (a3 ++ [Some v3]) (a4 ++ [Some v4])).
Proof.
  intros O s1.
  destruct (on_meta_fills timestamp batch_timestamp s0 (on_meta_outcome _ _ _ O))
    as (s' & E & _ & A).
  assert (s1 = s') as -> by (unfold s1; now rewrite E).
  split; [eauto|]. split.
  - eapply run_messages_same_length, all_series_same_length, A.
  - intros sample s a1 a2 a3 a4. apply on_sample_allocated.
Qed.

Lemma series_stay_aligned_witness :
  same_length
    (data (run_messages example_hour [Data [example_sample; example_sample]]
             (state_after (on_meta example_hour (example_hour + 75000) new_load)))).
Proof.
  exact (proj1 (proj2 (series_stay_aligned example_hour (example_hour + 75000)
                         new_load [Data [example_sample; example_sample]]
                         eq_refl))).
Defined.

(** ** Carry-forward *)

Lemma array_get_set_eq a i v : array_get (array_set a i v) i = v.
Proof.
  unfold array_get. revert a.
  induction i as [| i IH]; intros [| h t]; simpl; auto; apply IH.
Qed.

Lemma array_get_set_ne a i j v :
  i <> j -> array_get (array_set a i v) j = array_get a j.
Proof.
  unfold array_get. revert a j.
  induction i as [| i IH]; intros [| h t] [| j] N; simpl; try congruence; auto;
    rewrite IH by congruence; reflexivity.
Qed.

(** The effect of one decompression step on the entry for channel [c]. *)
Lemma decompress_current x i s c :
  (forall l, x = JInst l -> i = 3%nat) ->
  fst (decompress x i s) = Ok tt /\
  array_get (current (state_after (decompress x i s))) c =
    if decide (c = i)
    then match delivered_by i x with
         | Some v => Num v
         | None => array_get (current s) i
         end
    else array_get (current s) c.
Proof.
  intros W. unfold decompress, delivered_by.
  destruct (Nat.eqb i 3) eqn:E3.
  - destruct x as [| x | l]; simpl; try (split; [reflexivity|]; case_decide; congruence).
    destruct (l !! 1%nat) as [[v|]|]; simpl;
      (split; [reflexivity|]); case_decide; subst;
      rewrite ?array_get_set_eq, ?array_get_set_ne by congruence; reflexivity.
  - destruct x as [| x | l]; simpl.
    + split; [reflexivity|]. case_decide; congruence.
    + split; [reflexivity|]. case_decide; subst;
        rewrite ?array_get_set_eq, ?array_get_set_ne by congruence; reflexivity.
    + specialize (W l eq_refl). subst i. discriminate.
Qed.

Lemma sample_shape_from_head i x t :
  sample_shape_from i (x :: t) = true ->
  (forall l, x = JInst l -> i = 3%nat) /\ sample_shape_from (S i) t = true.
Proof.
  destruct x as [| v | l]; cbn [sample_shape_from]; intros W.
  - split; [discriminate | exact W].
  - split; [discriminate | exact W].
  - apply andb_true_iff in W as [W3 W].
    split; [intros _ _; now apply Nat.eqb_eq | exact W].
Qed.

(** The effect of decompressing a sample whose first element has index [i]. *)
Lemma for_each_decompress_current sample i s c :
  sample_shape_from i sample = true ->
  array_get (current (state_after (for_each_from i sample decompress s))) c =
    if decide (i <= c)%nat
    then match sample !! (c - i)%nat ≫= delivered_by c with
         | Some v => Num v
         | None => array_get (current s) c
         end
    else array_get (current s) c.
Proof.
  revert i s. induction sample as [| x t IH]; intros i s W.
  - simpl. now case_decide.
  - apply sample_shape_from_head in W as [Wx Wt].
    destruct (decompress_current x i s c Wx) as [O G].
    cbn [for_each_from]. unfold bind.
    destruct (decompress x i s) as [r s1]. simpl in O, G. subst r.
    unfold state_after in G; simpl in G.
    rewrite (IH (S i) s1 Wt), G.
    destruct (decide (c = i)) as [-> | N].
    + rewrite Nat.sub_diag. simpl.
      rewrite decide_False by lia. rewrite decide_True by lia. reflexivity.
    + destruct (decide (i <= c)%nat) as [L | L].
      * rewrite decide_True by lia.
        replace (c - i)%nat with (S (c - S i)) by lia. reflexivity.
      * rewrite decide_False by lia. reflexivity.
Qed.

Lemma push_row_current s : current (state_after (push_row s)) = current s.
Proof.
  unfold push_row, bind, get, push, state_after. simpl.
  repeat match goal with
         | |- context [match ?d !! ?t with _ => _ end] =>
             destruct (d !! t); simpl
         end; reflexivity.
Qed.

(** After a sample, the entry for channel [c] is the value the sample
    delivers for [c], or else what it was. *)
Lemma on_sample_current sample s c :
  sample_shape sample = true ->
  array_get (current (state_after (on_sample sample s))) c =
    match delivered c sample with
    | Some v => Num v
    | None => array_get (current s) c
    end.
Proof.
  intros W. unfold on_sample, for_each.
  pose proof (for_each_decompress_current sample 0 s c W) as G.
  pose proof (for_each_decompress_ok sample 0 s W) as O.
  unfold bind. destruct (for_each_from 0 sample decompress s) as [r s1].
  simpl in O; subst r. unfold state_after in G; simpl in G.
  change (snd (push_row s1)) with (state_after (push_row s1)).
  rewrite push_row_current, G, Nat.sub_0_r. reflexivity.
Qed.

Lemma latest_app c l1 l2 :
  latest c (l1 ++ l2) =
    match latest c l1 with Some v => Some v | None => latest c l2 end.
Proof.
  induction l1 as [| x t IH]; simpl; [reflexivity|].
  destruct (delivered c x); [reflexivity | exact IH].
Qed.

Lemma latest_delivered c l sample x :
  sample ∈ l -> delivered c sample = Some x -> exists y, latest c l = Some y.
Proof.
  induction l as [| h t IH]; intros I D; [by apply elem_of_nil in I|].
  simpl. apply elem_of_cons in I as [<- | I].
  - rewrite D. eauto.
  - destruct (delivered c h); eauto.
Qed.

Lemma run_samples_current samples s c :
  forallb sample_shape samples = true ->
  array_get (current (run_samples samples s)) c =
    match latest c (rev samples) with
    | Some v => Num v
    | None => array_get (current s) c
    end.
Proof.
  revert s. induction samples as [| x t IH]; intros s W; [reflexivity|].
  simpl in W. apply andb_true_iff in W as [Wx Wt].
  change (run_samples (x :: t) s) with (run_samples t (state_after (on_sample x s))).
  rewrite (IH _ Wt), on_sample_current by exact Wx.
  simpl. rewrite latest_app. simpl.
  destruct (latest c (rev t)); [reflexivity|].
  now destruct (delivered c x).
Qed.

(** The four series exist. *)
Lemma for_each_on_sample_run batch i s a1 a2 a3 a4 :
  allocated (data s) a1 a2 a3 a4 ->
  forallb sample_shape batch = true ->
  exists b1 b2 b3 b4,
    for_each_from i batch (fun samples _ => on_sample samples) s
    = (Ok tt, run_samples batch s) /\
    allocated (data (run_samples batch s)) b1 b2 b3 b4.
Proof.
  revert i s a1 a2 a3 a4. induction batch as [| x t IH]; intros i s a1 a2 a3 a4 A W.
  - do 4 eexists. split; [reflexivity | exact A].
  - simpl in W. apply andb_true_iff in W as [Wx Wt].
    destruct (on_sample_allocated x s _ _ _ _ A Wx)
      as (v1 & v2 & v3 & v4 & s' & E & A').
    cbn [for_each_from]. rewrite (bind_ok _ _ _ _ _ E).
    change (run_samples (x :: t) s) with (run_samples t (state_after (on_sample x s))).
    rewrite E. unfold state_after; simpl.
    exact (IH (S i) s' _ _ _ _ A' Wt).
Qed.

Lemma forallb_concat_head {A} (f : A -> bool) (x : list A) (t : list (list A)) :
  forallb f (concat (x :: t)) = true ->
  forallb f x = true /\ forallb f (concat t) = true.
Proof. simpl. rewrite forallb_app. apply andb_true_iff. Qed.

Lemma run_samples_app l1 l2 s :
  run_samples (l1 ++ l2) s = run_samples l2 (run_samples l1 s).
Proof. unfold run_samples. apply foldl_app. Qed.

(** Data frames of the metrics1 shape, after the metadata frame: the
    listener processes their samples one after the other. *)
Lemma run_messages_data timestamp frames s a1 a2 a3 a4 :
  allocated (data s) a1 a2 a3 a4 ->
  forallb sample_shape (concat frames) = true ->
  run_messages timestamp (map Data frames) s = run_samples (concat frames) s.
Proof.
  revert s a1 a2 a3 a4.
  induction frames as [| b t IH]; intros s a1 a2 a3 a4 A W; [reflexivity|].
  apply forallb_concat_head in W as [Wb Wt].
  destruct (for_each_on_sample_run b 0 s _ _ _ _ A Wb)
    as (b1 & b2 & b3 & b4 & E & A').
  simpl. rewrite run_samples_app.
  unfold run_messages in IH |- *. cbn [foldl on_message]. unfold for_each.
  rewrite E. unfold state_after; simpl.
  exact (IH _ _ _ _ _ A' Wt).
Qed.

(** C3. Data frames of one subscription, processed in arrival order after
    the metadata frame. After the sample at position [p], the carry-forward
    entry of every channel [c] is the value that sample delivers for [c] (for
    channel 3 the 1-minute element of the load tuple) if it delivers one,
    otherwise the value most recently delivered before, and only if none was
    ever delivered the entry it started with. So once a value has arrived for
    [c], the entry is a number from then on. *)
Theorem carry_forward (timestamp : Z) (frames : list (list (list json)))
    (s : load) (a1 a2 a3 a4 : list slot) (c p : nat) :
  allocated (data s) a1 a2 a3 a4 ->
  forallb sample_shape (concat frames) = true ->
  let decoded := take (S p) (concat frames) in
  let s_p := run_samples decoded s in
  run_messages timestamp (map Data frames) s = run_samples (concat frames) s /\
  array_get (current s_p) c =
    match latest c (rev decoded) with
    | Some v => Num v
    | None => array_get (current s) c
    end /\
  (forall sample v,
      concat frames !! p = Some sample -> delivered c sample = Some v ->
      array_get (current s_p) c = Num v) /\
  (forall q sample v,
      (q <= p)%nat -> concat frames !! q = Some sample ->
      delivered c sample = Some v ->
      exists y, array_get (current s_p) c = Num y).
Proof.
  intros A W decoded s_p.
  assert (forallb sample_shape decoded = true) as Wd.
  { apply forallb_forall. intros x I.
    apply (proj1 (forallb_forall _ _) W).
    apply list_elem_of_In. apply list_elem_of_In in I.
    revert I. apply subseteq_take. }
  pose proof (run_samples_current decoded s c Wd) as G. fold s_p in G.
  split; [exact (run_messages_data timestamp frames s _ _ _ _ A W)|].
  split; [exact G|]. split.
  - intros sample v P D. rewrite G. unfold decoded.
    rewrite (take_S_r _ _ _ P), rev_app_distr. simpl. now rewrite D.
  - intros q sample v Q P D.
    destruct (latest_delivered c (rev decoded) sample v) as [y L]; [|exact D|].
    + apply list_elem_of_In, in_rev. rewrite rev_involutive.
      apply list_elem_of_In, list_elem_of_lookup. exists q.
      unfold decoded. rewrite lookup_take_lt by lia. exact P.
    + exists y. now rewrite G, L.
Qed.

Lemma carry_forward_witness :
  array_get (current (run_samples (take 2 (concat example_frames)) example_load)) 1
  = Num 5.
Proof.
  refine (proj1 (proj2 (proj2
    (carry_forward example_hour example_frames example_load [] [] [] [] 1 1 _ eq_refl)))
    [JNull; JNum 5] 5%float eq_refl eq_refl).
  repeat split; reflexivity.
Defined.

(** ** Spikes *)

Lemma spike_scan_ticks startTime i prev_val a :
  spike_scan startTime i prev_val a
  = map (swap_spike startTime) (spike_ticks i prev_val a).
Proof.
  revert i prev_val. induction a as [| [value|] t IH]; intros i prev_val; simpl.
  - reflexivity.
  - rewrite map_app, IH. now destruct (0.25 <? value - prev_val)%float.
  - apply IH.
Qed.

(** The counterexample to C7: the scan of the illustration series emits at
    tick 2, the rise from 0 to 0.3, because 0.3 - 0 is above 0.25. *)
Lemma spike_at_first_rise :
  spike_ticks 0 0 illustration = [2; 4; 6]%nat /\
  spike_ticks 0 0 illustration <> [4; 6]%nat /\
  (0.25 <? 0.3 - 0)%float = true.
Proof. split; [reflexivity|]. split; [discriminate | reflexivity]. Qed.

(** C7, as the code has it. Over the series [0, 0, 0.3, 0.3, 0.6, 0.2, 0.6]
    the scan emits three events: at the rises 0 to 0.3, 0.3 to 0.6 and 0.2 to
    0.6 (ticks 2, 4 and 6, all in minute 0), and none at the unchanged slots
    or at the fall from 0.6 to 0.2. *)
Theorem spikes_of_illustration (startTime : Z) :
  spike_ticks 0 0 illustration = [2; 4; 6]%nat /\
  spike_scan startTime 0 0 illustration
  = [mkSpike 0 startTime "Swap"; mkSpike 0 startTime "Swap";
     mkSpike 0 startTime "Swap"] /\
  MetricsHour_events startTime (Some (hour_of illustration illustration
                                        illustration illustration))
  = Ok (Some (map (swap_spike startTime) [2; 4; 6]%nat)).
Proof.
  assert (spike_ticks 0 0 illustration = [2; 4; 6]%nat) as T by reflexivity.
  split; [exact T|]. split.
  - rewrite spike_scan_ticks, T. unfold swap_spike. simpl.
    now rewrite Z.add_0_r.
  - unfold MetricsHour_events.
    destruct (hour_of_allocated illustration illustration illustration illustration)
      as (E1 & E2 & E3 & E4).
    rewrite E1, E2, E3, E4, spike_scan_ticks, T. reflexivity.
Qed.

(** ** The close listener *)

Lemma close_channel_load (chs : list channel) k j :
  (data ∘ ch_load) <$>
    alter (fun ch => mkChannel (ch_timestamp ch) (ch_load ch) true) k chs !! j
  = (data ∘ ch_load) <$> chs !! j.
Proof.
  destruct (decide (k = j)) as [-> | N].
  - rewrite list_lookup_alter_eq. now destruct (chs !! j).
  - now rewrite list_lookup_alter_ne.
Qed.

Lemma cached_alt h timestamp :
  cached h timestamp
  = this_data h !! timestamp ≫= fun k => (data ∘ ch_load) <$> channels h !! k.
Proof.
  unfold cached. destruct (this_data h !! timestamp) as [k|]; [|reflexivity].
  simpl. now destruct (channels h !! k).
Qed.

(** What the close listener does to the component, case by case. *)
Lemma on_close_cases h k c ch :
  channels h !! k = Some ch ->
  let h' := state_after (on_close k c h) in
  (forall j, (data ∘ ch_load) <$> channels h' !! j
             = (data ∘ ch_load) <$> channels h !! j) /\
  (has_problem c = true ->
     this_data h' = this_data h /\ errors h' = errors h ++ [FailedToLoad] /\
     renders h' = renders h) /\
  (has_problem c = false -> data (ch_load ch) !! "use_memory"%string = Some [] ->
     this_data h' = this_data h /\
     errors h' = errors h ++ [ClosedWithoutData (ch_timestamp ch)] /\
     renders h' = renders h) /\
  (forall x t,
     has_problem c = false ->
     data (ch_load ch) !! "use_memory"%string = Some (x :: t) ->
     this_data h' = <[ch_timestamp ch := k]> (this_data h) /\
     errors h' = errors h /\ renders h' = S (renders h)).
Proof.
  intros E h'. unfold h', on_close.
  rewrite (bind_ok get _ h h h) by reflexivity. rewrite E.
  unfold bind, console_error, install, close_channel, throw, state_after.
  destruct (has_problem c); simpl.
  - split; [apply close_channel_load|]. repeat split; congruence.
  - destruct (data (ch_load ch) !! "use_memory"%string) as [[| x t]|]; simpl.
    + split; [apply close_channel_load|]. repeat split; congruence.
    + split; [apply close_channel_load|]. repeat split; congruence.
    + split; [reflexivity|]. repeat split; congruence.
Qed.

(** C9. A close event with a problem installs nothing: the map from hours to
    buffers, every buffer it gives access to and the render count are as
    before, and the failure is reported. *)
Theorem problem_close_installs_nothing (h : history) (k : nat) (c : close_message) :
  has_problem c = true ->
  let h' := step h (Close k c) in
  this_data h' = this_data h /\
  (forall timestamp, cached h' timestamp = cached h timestamp) /\
  renders h' = renders h /\
  (k < length (channels h) -> errors h' = errors h ++ [FailedToLoad])%nat.
Proof.
  intros P h'. unfold h'. cbn [step].
  destruct (channels h !! k) as [ch|] eqn:E.
  - destruct (on_close_cases h k c ch E) as (L & (T & R & N) & _); [exact P|].
    split; [exact T|]. split; [|split; [exact N | intros _; exact R]].
    intros timestamp. rewrite !cached_alt, T.
    destruct (this_data h !! timestamp) as [j|]; [apply L | reflexivity].
  - unfold on_close. rewrite (bind_ok get _ h h h) by reflexivity. rewrite E.
    unfold state_after; simpl. repeat split.
    intros B. apply lookup_ge_None in E. lia.
Qed.

Lemma problem_close_installs_nothing_witness :
  this_data (step example_history (Close 0 (mkClose (Some "not-found"%string))))
  = this_data example_history.
Proof.
  exact (proj1 (problem_close_installs_nothing example_history 0
                  (mkClose (Some "not-found"%string)) eq_refl)).
Defined.

(** The counterexample to C6: the metadata frame reports a first datum one
    minute into the hour, no data frame follows, and the channel closes
    without a problem. The buffer with 12 no-data slots in each series is
    installed, the component is rendered again, and no error is reported. *)
Lemma gap_only_hour_is_installed :
  exists d,
    cached (run example_history
              [Message 0 (Meta (example_hour + 60000)); Close 0 (mkClose None)])
      example_hour = Some d /\
    all_series d (replicate 12 None) /\
    errors (run example_history
              [Message 0 (Meta (example_hour + 60000)); Close 0 (mkClose None)]) = [] /\
    renders (run example_history
               [Message 0 (Meta (example_hour + 60000)); Close 0 (mkClose None)]) = 1%nat.
Proof.
  eexists. split; [reflexivity|]. split; [|split; reflexivity].
  repeat split; reflexivity.
Qed.

Lemma gap_minutes_zero timestamp batch_timestamp :
  0 <= batch_timestamp - timestamp < 60000 ->
  gap_minutes timestamp batch_timestamp = 0.
Proof.
  intros [L U]. unfold gap_minutes, gap_ticks.
  assert (0 <= (batch_timestamp - timestamp) / 5000 < 12) as B.
  { split; [apply Z.div_pos; lia | apply Z.div_lt_upper_bound; lia]. }
  rewrite (Z.div_small _ 12 B). reflexivity.
Qed.

Lemma gap_minutes_pos timestamp batch_timestamp :
  60000 <= batch_timestamp - timestamp ->
  12 <= gap_minutes timestamp batch_timestamp.
Proof.
  intros L. unfold gap_minutes, gap_ticks.
  assert (12 <= (batch_timestamp - timestamp) / 5000) as B
    by (apply Z.div_le_lower_bound; lia).
  assert (1 <= (batch_timestamp - timestamp) / 5000 / 12)
    by (apply Z.div_le_lower_bound; lia).
  lia.
Qed.

(** C6, as the code has it. A subscription delivers its metadata frame and
    no data sample, and closes without a problem. If the metadata frame
    caused no gap fill (the first datum is less than one tick after the
    requested hour), the series are empty: nothing is installed and the close
    is reported as one without data. If the first datum is a minute or more
    after the requested hour, the gap fill is not empty and counts as data:
    the buffer, whose series begin with the whole-minute no-data block and
    hold no sample, is installed. *)
Theorem close_after_no_samples (h : history) (k : nat)
    (timestamp batch_timestamp : Z) (closed : bool) (c : close_message) :
  channels h !! k
  = Some (mkChannel timestamp
            (state_after (on_meta timestamp batch_timestamp new_load)) closed) ->
  has_problem c = false ->
  0 <= batch_timestamp - timestamp < 5000 * 2 ^ 32 ->
  let h' := step h (Close k c) in
  (batch_timestamp - timestamp < 5000 ->
     this_data h' = this_data h /\
     (forall t, cached h' t = cached h t) /\
     errors h' = errors h ++ [ClosedWithoutData timestamp] /\
     renders h' = renders h) /\
  (60000 <= batch_timestamp - timestamp ->
     this_data h' = <[timestamp := k]> (this_data h) /\
     errors h' = errors h /\
     renders h' = S (renders h) /\
     exists d rest1 rest2 rest3 rest4,
       cached h' timestamp = Some d /\
       allocated d
         (replicate (Z.to_nat (gap_minutes timestamp batch_timestamp)) None ++ rest1)
         (replicate (Z.to_nat (gap_minutes timestamp batch_timestamp)) None ++ rest2)
         (replicate (Z.to_nat (gap_minutes timestamp batch_timestamp)) None ++ rest3)
         (replicate (Z.to_nat (gap_minutes timestamp batch_timestamp)) None ++ rest4) /\
       (12 <= Z.to_nat (gap_minutes timestamp batch_timestamp))%nat).
Proof.
  intros E P B h'. unfold h'. cbn [step].
  destruct (on_meta_fills timestamp batch_timestamp new_load
              (gap_minutes_valid _ _ B)) as (s' & M & _ & A).
  rewrite M in E. unfold state_after in E; simpl in E.
  destruct (on_close_cases h k c _ E) as (L & _ & Empty & Full).
  cbn [ch_load ch_timestamp] in Empty, Full.
  split.
  - intros Short. rewrite gap_minutes_zero in A by lia.
    destruct (Empty P (proj1 (proj2 (proj2 A)))) as (T & R & N).
    split; [exact T|]. split; [|split; assumption].
    intros t. rewrite !cached_alt, T.
    destruct (this_data h !! t) as [j|]; [apply L | reflexivity].
  - intros Long. pose proof (gap_minutes_pos _ _ Long) as G.
    destruct (Z.to_nat (gap_minutes timestamp batch_timestamp)) as [| n] eqn:N;
      [lia|].
    destruct (Full None (replicate n None) P (proj1 (proj2 (proj2 A))))
      as (T & R & Rn).
    split; [exact T|]. split; [exact R|]. split; [exact Rn|].
    exists (data s'), [], [], [], []. rewrite !app_nil_r.
    split; [|split; [exact A | lia]].
    rewrite cached_alt, T, lookup_insert_eq. simpl.
    rewrite L, E. reflexivity.
Qed.

Lemma close_after_no_samples_witness :
  this_data (step (deliver 0 (Meta (example_hour + 2000)) example_history)
               (Close 0 (mkClose None)))
  = this_data (deliver 0 (Meta (example_hour + 2000)) example_history).
Proof.
  refine (proj1 (proj1
    (close_after_no_samples (deliver 0 (Meta (example_hour + 2000)) example_history)
       0 example_hour (example_hour + 2000) false (mkClose None)
       eq_refl eq_refl _) _)).
  - vm_compute. split; [discriminate | reflexivity].
  - vm_compute. reflexivity.
Defined.

(** ** Buffer length *)

(** C4, on the code. One sample arrives for the hour and the channel closes
    without a problem. The buffer is installed as it is: each series has one
    entry, not 720, and nothing pads it. *)
Theorem short_buffer_is_installed :
  exists d,
    cached (run example_history
              [Message 0 (Meta example_hour); Message 0 (Data [example_sample]);
               Close 0 (mkClose None)])
      example_hour = Some d /\
    allocated d [Some 0.03%float] [Some 0.12%float] [Some 0.5%float] [Some 0%float] /\
    length [Some 0.03%float] <> 720%nat.
Proof.
  eexists. split; [reflexivity|]. split; [repeat split; reflexivity | discriminate].
Qed.

(** ** Requests *)

(** The counterexample to C5: a second request for the current hour, made
    while the constructor's load of it is open and nothing is cached, opens a
    second channel for that hour. *)
Lemma second_request_opens_second_channel :
  List.filter (fun ch => Z.eqb (ch_timestamp ch) example_hour && negb (ch_closed ch))
    (channels (load_hour example_hour example_history))
  = [mkChannel example_hour new_load false; mkChannel example_hour new_load false]
  /\ this_data example_history = ∅.
Proof. split; reflexivity. Qed.

(** C5, as the code has it. Every call of [load_hour] opens exactly one new
    channel for the hour asked for, whatever loads are open and whatever is
    cached; it keeps no loading state. The constructor, its only caller, asks
    for two different hours: the current one and the one before. *)
Theorem load_hour_always_subscribes (timestamp now : Z) (h : history) :
  channels (load_hour timestamp h)
  = channels h ++ [mkChannel timestamp new_load false] /\
  this_data (load_hour timestamp h) = this_data h /\
  map ch_timestamp (channels (constructor now))
  = [start (constructor now); start (constructor now) - MSEC_PER_H] /\
  start (constructor now) <> start (constructor now) - MSEC_PER_H.
Proof.
  split; [reflexivity|]. split; [reflexivity|]. split; [reflexivity|].
  unfold MSEC_PER_H. lia.
Qed.

(** * Further properties of the listeners *)

(** ** The metadata frame: range, reset *)

Lemma on_meta_current timestamp batch_timestamp s :
  current (state_after (on_meta timestamp batch_timestamp s)) = current s.
Proof.
  destruct (valid_array_length (gap_minutes timestamp batch_timestamp)) eqn:V.
  - destruct (on_meta_fills timestamp batch_timestamp s V) as (s' & E & C & _).
    now rewrite E.
  - now rewrite (on_meta_range_error _ _ _ V).
Qed.

Lemma gap_minutes_valid_iff timestamp batch_timestamp :
  valid_array_length (gap_minutes timestamp batch_timestamp) = true
  <-> 0 <= batch_timestamp - timestamp < 60000 * 357913942.
Proof.
  unfold valid_array_length, gap_minutes, gap_ticks.
  rewrite andb_true_iff, Z.leb_le, Z.ltb_lt.
  change (2 ^ 32) with 4294967296.
  split; intros H; Z.div_mod_to_equations; lia.
Qed.

(** X1. The metadata branch succeeds exactly when the first datum is at or
    after the requested hour and less than 357913942 minutes after it.
    Otherwise, in particular when the first datum is earlier than the
    requested hour, [Array] raises a RangeError before anything is assigned:
    the load is left as it was. *)
Theorem on_meta_range (timestamp batch_timestamp : Z) (s : load) :
  (fst (on_meta timestamp batch_timestamp s) = Ok tt
   <-> 0 <= batch_timestamp - timestamp < 60000 * 357913942) /\
  (fst (on_meta timestamp batch_timestamp s) <> Ok tt ->
   on_meta timestamp batch_timestamp s = (Throw RangeError, s)) /\
  (batch_timestamp < timestamp ->
   on_meta timestamp batch_timestamp s = (Throw RangeError, s)).
Proof.
  destruct (valid_array_length (gap_minutes timestamp batch_timestamp)) eqn:V.
  - destruct (on_meta_fills _ _ s V) as (s' & E & _).
    apply gap_minutes_valid_iff in V.
    rewrite E. simpl. split; [tauto|]. split; [congruence | lia].
  - rewrite (on_meta_range_error _ _ _ V). simpl.
    assert (~ 0 <= batch_timestamp - timestamp < 60000 * 357913942) as N.
    { intros B. apply gap_minutes_valid_iff in B. congruence. }
    split; [split; [discriminate | tauto] | auto].
Qed.

(** X2. A metadata frame that arrives after data frames starts the series
    over: all four hold the new no-data block only, whatever samples were
    gathered before, while the carry-forward state is kept. *)
Theorem later_metadata_discards_samples (timestamp batch_timestamp : Z)
    (ms : list message) (s : load) :
  0 <= batch_timestamp - timestamp < 60000 * 357913942 ->
  let before := run_messages timestamp ms s in
  let after := run_messages timestamp (ms ++ [Meta batch_timestamp]) s in
  all_series (data after)
    (replicate (Z.to_nat (gap_minutes timestamp batch_timestamp)) None) /\
  current after = current before.
Proof.
  intros B before after. unfold after, run_messages. rewrite foldl_app. simpl.
  fold (run_messages timestamp ms s). fold before.
  destruct (on_meta_fills timestamp batch_timestamp before
              (proj2 (gap_minutes_valid_iff _ _) B)) as (s' & E & C & A).
  rewrite E. unfold state_after; simpl. split; assumption.
Qed.

Lemma later_metadata_discards_samples_witness :
  all_series
    (data (run_messages example_hour
             ([Meta example_hour; Data [example_sample]]
              ++ [Meta (example_hour + 60000)]) new_load))
    (replicate 12 None).
Proof.
  refine (proj1 (later_metadata_discards_samples example_hour (example_hour + 60000)
                   [Meta example_hour; Data [example_sample]] new_load _)).
  vm_compute. split; [discriminate | reflexivity].
Defined.

(** ** Data frames *)

(** X3. A data frame that arrives before any metadata frame: the first
    sample is decompressed into [current], then the first [push] raises a
    TypeError because [data] has no series. Nothing is added to [data], and
    the remaining samples of the frame are not processed. *)
Theorem data_before_metadata (timestamp : Z) (sample : list json)
    (rest : list (list json)) (s : load) :
  data s = ∅ ->
  sample_shape sample = true ->
  on_message timestamp (Data (sample :: rest)) s
  = (Throw TypeError,
     mkLoad (current (state_after (for_each sample decompress s))) ∅).
Proof.
  intros D W. cbn [on_message]. unfold for_each at 1. cbn [for_each_from].
  unfold on_sample.
  pose proof (for_each_decompress_ok sample 0 s W) as O.
  pose proof (for_each_decompress_data sample 0 s) as Dd.
  unfold for_each.
  destruct (for_each_from 0 sample decompress s) as [r [c1 d1]] eqn:E.
  simpl in O; subst r. unfold state_after in *; simpl in *. subst d1.
  unfold bind at 1. unfold bind at 1. rewrite E.
  unfold push_row, bind, get, push. simpl. rewrite D, lookup_empty. reflexivity.
Qed.

Lemma data_before_metadata_witness :
  on_message example_hour (Data [example_sample; example_sample]) new_load
  = (Throw TypeError,
     mkLoad [Num 10; Num 10; Num 10; Num 1.2; Num 8e9; Num 4e9; Num 0] ∅).
Proof.
  exact (data_before_metadata example_hour example_sample [example_sample]
           new_load eq_refl eq_refl).
Defined.

(** A sample whose elements from index [i] on deliver nothing is decompressed
    without any assignment. *)
Lemma for_each_decompress_nothing sample i s :
  sample_shape_from i sample = true ->
  (forall j, sample !! j ≫= delivered_by (i + j) = None) ->
  for_each_from i sample decompress s = (Ok tt, s).
Proof.
  revert i. induction sample as [| x t IH]; intros i W N; [reflexivity|].
  apply sample_shape_from_head in W as [Wx Wt].
  cbn [for_each_from].
  assert (decompress x i s = (Ok tt, s)) as E.
  { specialize (N 0%nat). rewrite Nat.add_0_r in N. simpl in N.
    unfold decompress, delivered_by in *.
    destruct (Nat.eqb i 3) eqn:E3.
    - destruct x as [| v | l]; try reflexivity.
      destruct (l !! 1%nat) as [[v|]|]; simpl in N; [discriminate | reflexivity..].
    - destruct x as [| v | l]; [reflexivity | discriminate |].
      specialize (Wx l eq_refl). subst i. discriminate. }
  rewrite (bind_ok _ _ _ _ _ E). apply IH; [exact Wt|].
  intros j. specialize (N (S j)). now rewrite Nat.add_succ_r in N.
Qed.

(** X4. A sample that delivers nothing (every element [null] or missing, the
    1-minute load included) changes no entry of [current]: it is processed
    exactly as a bare push, so it repeats the row of the carry-forward
    state. *)
Theorem silent_sample_repeats_row (sample : list json) (s : load) :
  sample_shape sample = true ->
  (forall c, delivered c sample = None) ->
  on_sample sample s = push_row s.
Proof.
  intros W N. unfold on_sample, for_each.
  erewrite bind_ok; [reflexivity|].
  apply for_each_decompress_nothing; [exact W | exact N].
Qed.

Lemma silent_sample_repeats_row_witness :
  on_sample [JNull; JNull; JNull; JInst [Some 2%float; None]] loaded_example
  = push_row loaded_example.
Proof.
  apply silent_sample_repeats_row; [reflexivity|].
  intros [| [| [| [| c]]]]; reflexivity.
Defined.

Lemma set_current_defined c i x :
  channels_defined c -> channels_defined (array_set c i (Num x)).
Proof.
  intros D j L. destruct (decide (i = j)) as [-> | N].
  - now rewrite array_get_set_eq.
  - rewrite array_get_set_ne by exact N. now apply D.
Qed.

Lemma decompress_defined x i s :
  channels_defined (current s) ->
  channels_defined (current (state_after (decompress x i s))).
Proof.
  intros D. unfold decompress.
  destruct (Nat.eqb i 3); destruct x as [| v | l]; simpl; try exact D.
  - destruct (l !! 1%nat) as [[v|]|]; simpl; try exact D.
    now apply set_current_defined.
  - now apply set_current_defined.
Qed.

Lemma for_each_decompress_defined sample i s :
  channels_defined (current s) ->
  channels_defined (current (state_after (for_each_from i sample decompress s))).
Proof.
  revert i s. induction sample as [| x t IH]; intros i s D; [exact D|].
  cbn [for_each_from]. unfold bind.
  pose proof (decompress_defined x i s D) as D1.
  destruct (decompress x i s) as [[[]|e] s1]; unfold state_after in *; simpl in *.
  - now apply IH.
  - exact D1.
Qed.

Lemma on_sample_defined sample s :
  channels_defined (current s) ->
  channels_defined (current (state_after (on_sample sample s))).
Proof.
  intros D. unfold on_sample, for_each, bind.
  pose proof (for_each_decompress_defined sample 0 s D) as D1.
  destruct (for_each_from 0 sample decompress s) as [[[]|e] s1];
    unfold state_after in *; simpl in *; [|exact D1].
  change (snd (push_row s1)) with (state_after (push_row s1)).
  now rewrite push_row_current.
Qed.

Lemma on_message_defined timestamp m s :
  channels_defined (current s) ->
  channels_defined (current (state_after (on_message timestamp m s))).
Proof.
  intros D. destruct m as [bt | batch]; cbn [on_message].
  - now rewrite on_meta_current.
  - unfold for_each. generalize 0%nat. revert s D.
    induction batch as [| x t IH]; intros s D i; [exact D|].
    cbn [for_each_from]. unfold bind.
    pose proof (on_sample_defined x s D) as D1.
    destruct (on_sample x s) as [[[]|e] s1]; unfold state_after in *; simpl in *.
    + now apply IH.
    + exact D1.
Qed.

(** X5. Whatever messages of the metrics1 shape a load receives, in
    whatever order, the entries of [current] for the seven channels are
    [null] or a number, never [undefined], and [current] keeps at least its
    seven entries. *)
Theorem current_channels_stay_defined (timestamp : Z) (ms : list message) :
  forallb message_shape ms = true ->
  channels_defined (current (run_messages timestamp ms new_load)) /\
  (7 <= length (current (run_messages timestamp ms new_load)))%nat.
Proof.
  intros _.
  assert (channels_defined (current (run_messages timestamp ms new_load))) as D.
  { assert (channels_defined (current new_load)) as D0.
    { intros i L. do 7 (destruct i as [| i]; [discriminate|]). lia. }
    revert D0. generalize new_load. unfold run_messages.
    induction ms as [| m t IH]; intros s D; [exact D|].
    simpl. apply IH. now apply on_message_defined. }
  split; [exact D|].
  destruct (le_lt_dec 7 (length (current (run_messages timestamp ms new_load))))
    as [L | L]; [exact L|].
  exfalso. apply (D (length (current (run_messages timestamp ms new_load)))); [exact L|].
  unfold array_get. now rewrite lookup_ge_None_2.
Qed.

Lemma current_channels_stay_defined_witness :
  channels_defined
    (current (run_messages example_hour
                [Meta example_hour; Data [example_sample; [JNull; JNum 5]]] new_load)).
Proof.
  exact (proj1 (current_channels_stay_defined example_hour
                  [Meta example_hour; Data [example_sample; [JNull; JNum 5]]]
                  eq_refl)).
Defined.

(** ** The contents of a loaded hour *)

Lemma sat_memory_value_level c : level (sat_memory_value c).
Proof.
  unfold level, sat_memory_value.
  destruct (1000 <? _)%float; [auto|]. destruct (1 <? _)%float; auto.
Qed.

(** One sample, with the values it appends. *)
Lemma on_sample_row sample s a1 a2 a3 a4 :
  allocated (data s) a1 a2 a3 a4 ->
  sample_shape sample = true ->
  exists s',
    on_sample sample s = (Ok tt, s') /\
    allocated (data s')
      (a1 ++ [Some (use_cpu_value (current s'))])
      (a2 ++ [Some (sat_cpu_value (current s'))])
      (a3 ++ [Some (use_memory_value (current s'))])
      (a4 ++ [Some (sat_memory_value (current s'))]).
Proof.
  intros A W. unfold on_sample, for_each.
  pose proof (for_each_decompress_ok sample 0 s W) as O.
  pose proof (for_each_decompress_data sample 0 s) as D.
  destruct (for_each_from 0 sample decompress s) as [r s1] eqn:E.
  simpl in O; subst r. unfold state_after in D; simpl in D.
  rewrite (bind_ok _ _ _ _ _ E). rewrite <- D in A.
  destruct (push_row_allocated s1 _ _ _ _ A) as (d' & P & A').
  rewrite P. eexists. split; [reflexivity | exact A'].
Qed.

Lemma run_samples_rows samples s g n :
  rows_after g n (data s) ->
  forallb sample_shape samples = true ->
  rows_after g (n + length samples) (data (run_samples samples s)).
Proof.
  revert s n. induction samples as [| x t IH]; intros s n R W.
  - simpl. now rewrite Nat.add_0_r.
  - simpl in W. apply andb_true_iff in W as [Wx Wt].
    destruct R as (r1 & r2 & r3 & r4 & A & L1 & L2 & L3 & L4 & V).
    destruct (on_sample_row x s _ _ _ _ A Wx) as (s' & E & A').
    change (run_samples (x :: t) s) with (run_samples t (state_after (on_sample x s))).
    rewrite E. unfold state_after; simpl.
    replace (n + S (length t))%nat with (S n + length t)%nat by lia.
    apply IH; [|exact Wt].
    exists (r1 ++ [use_cpu_value (current s')]), (r2 ++ [sat_cpu_value (current s')]),
      (r3 ++ [use_memory_value (current s')]), (r4 ++ [sat_memory_value (current s')]).
    rewrite !map_app, !app_assoc. simpl.
    split; [exact A'|]. rewrite !length_app. simpl.
    repeat split; try lia.
    apply Forall_app. split; [exact V|].
    apply Forall_singleton, sat_memory_value_level.
Qed.

Lemma gap_minutes_multiple timestamp batch_timestamp :
  (Z.to_nat (gap_minutes timestamp batch_timestamp)
   = 12 * Z.to_nat (gap_ticks timestamp batch_timestamp / 12))%nat.
Proof. unfold gap_minutes. lia. Qed.

(** The hour after its metadata frame and data frames of the metrics1
    shape. *)
Lemma loaded_rows timestamp batch_timestamp frames s0 :
  0 <= batch_timestamp - timestamp < 60000 * 357913942 ->
  forallb sample_shape (concat frames) = true ->
  rows_after (replicate (Z.to_nat (gap_minutes timestamp batch_timestamp)) None)
    (length (concat frames))
    (data (run_messages timestamp (Meta batch_timestamp :: map Data frames) s0)).
Proof.
  intros B W.
  destruct (on_meta_fills timestamp batch_timestamp s0
              (proj2 (gap_minutes_valid_iff _ _) B)) as (s' & E & _ & A).
  change (run_messages timestamp (Meta batch_timestamp :: map Data frames) s0)
    with (run_messages timestamp (map Data frames)
            (state_after (on_meta timestamp batch_timestamp s0))).
  rewrite E. unfold state_after; simpl.
  destruct A as (A1 & A2 & A3 & A4).
  erewrite run_messages_data; [| repeat split; eassumption | exact W].
  apply (run_samples_rows (concat frames) s' _ 0); [|exact W].
  exists [], [], [], []. simpl. rewrite app_nil_r.
  repeat split; try assumption. constructor.
Qed.

(** X6. After the metadata frame and data frames of the metrics1 shape, each
    of the four series is the whole-minute no-data block followed by exactly
    one number per sample: its length is the gap plus the number of samples,
    no-data occurs only in the leading block, whose length is a multiple of
    12, and every memory-saturation value is 0, 0.3 or 1. *)
Theorem loaded_hour_contents (timestamp batch_timestamp : Z)
    (frames : list (list (list json))) (s0 : load) :
  0 <= batch_timestamp - timestamp < 60000 * 357913942 ->
  forallb sample_shape (concat frames) = true ->
  rows_after (replicate (Z.to_nat (gap_minutes timestamp batch_timestamp)) None)
    (length (concat frames))
    (data (run_messages timestamp (Meta batch_timestamp :: map Data frames) s0)) /\
  (Z.to_nat (gap_minutes timestamp batch_timestamp) mod 12 = 0)%nat.
Proof.
  intros B W. split; [now apply loaded_rows|].
  rewrite gap_minutes_multiple, Nat.mul_comm. apply Nat.Div0.mod_mul.
Qed.

Lemma loaded_hour_contents_witness :
  rows_after (replicate 12 None) 2
    (data (run_messages example_hour
             (Meta (example_hour + 75000) :: map Data example_frames) new_load)).
Proof.
  refine (proj1 (loaded_hour_contents example_hour (example_hour + 75000)
                   example_frames new_load _ eq_refl)).
  vm_compute. split; [discriminate | reflexivity].
Defined.

(** ** [SvgGraph] *)

Lemma vertices_from_cases i (data : list slot) :
  ((None ∈ data) /\ vertices_from i data = Throw TypeError) \/
  ((None ∉ data) /\ exists l, vertices_from i data = Ok l /\ length l = length data).
Proof.
  revert i. induction data as [| [v|] t IH]; intros i.
  - right. split; [apply not_elem_of_nil | exists []; auto].
  - cbn [vertices_from]. destruct (IH (S i)) as [[I E] | [I (l & E & L)]]; rewrite E.
    + left. split; [now apply elem_of_cons; right | reflexivity].
    + right. split.
      * intros C. apply elem_of_cons in C as [C | C]; [discriminate | auto].
      * eexists. split; [reflexivity | simpl; now rewrite L].
  - left. split; [apply elem_of_cons; now left | reflexivity].
Qed.

(** X7. What [SvgGraph] does with a slice. It renders nothing exactly when
    the first and the last entry are both no-data. Otherwise it raises a
    TypeError exactly when some entry is no-data ([toString] of [null]), and
    else it draws one vertex per entry between the two closing vertices, in a
    view box of height length - 1. An empty slice is drawn: two vertices,
    height -1. *)
Theorem SvgGraph_outcome (category : string) (data : list slot) :
  (SvgGraph category data = Ok None
   <-> first_is_null data = true /\ last_is_null data = true) /\
  (SvgGraph category data = Throw TypeError
   <-> (None ∈ data) /\ first_is_null data && last_is_null data = false) /\
  (forall g, SvgGraph category data = Ok (Some g) ->
     (None ∉ data) /\
     length (svg_points g) = (length data + 2)%nat /\
     svg_height g = Z.of_nat (length data) - 1 /\
     svg_class g = category) /\
  (exists g, SvgGraph category [] = Ok (Some g) /\
     svg_points g = [(0, 0%float); (-1, 0%float)] /\ svg_height g = -1).
Proof.
  assert (exists g, SvgGraph category [] = Ok (Some g) /\
            svg_points g = [(0, 0%float); (-1, 0%float)] /\ svg_height g = -1) as Empty.
  { eexists. split; [reflexivity | split; reflexivity]. }
  unfold SvgGraph in *.
  destruct (first_is_null data && last_is_null data) eqn:B.
  - apply andb_true_iff in B.
    split; [tauto|]. split; [|split; [discriminate | exact Empty]].
    split; [discriminate | intros [_ C]; discriminate].
  - assert (~ (first_is_null data = true /\ last_is_null data = true)) as NB.
    { intros C. apply andb_true_iff in C. congruence. }
    destruct (vertices_from_cases 0 data) as [[I E] | [I (l & E & L)]]; rewrite E.
    + split; [split; [discriminate | tauto]|].
      split; [tauto|]. split; [discriminate | exact Empty].
    + split; [split; [discriminate | tauto]|].
      split; [split; [discriminate | intros [C _]; contradiction]|].
      split; [|exact Empty].
      intros g G. injection G as <-. simpl.
      split; [exact I|]. split; [|split; reflexivity].
      rewrite length_app, L. simpl. lia.
Qed.

Lemma SvgGraph_numbers category (r : list float) :
  exists g, SvgGraph category (map Some r) = Ok (Some g).
Proof.
  unfold SvgGraph.
  assert (first_is_null (map Some r) = false) as -> by now destruct r.
  destruct (vertices_from_cases 0 (map Some r)) as [[I _] | [_ (l & E & _)]].
  - apply list_elem_of_In, in_map_iff in I as (x & C & _). discriminate.
  - rewrite E. simpl. eauto.
Qed.

(** A minute's slice of a series made of a whole-minute no-data block and
    numbers. *)
Lemma slice_rows k minute (r : list float) :
  slice (replicate (12 * k) None ++ map Some r) (minute * 12) (minute * 12 + 12)
  = if (minute <? k)%nat then replicate 12 None
    else map Some (take 12 (drop (minute * 12 - 12 * k) r)).
Proof.
  unfold slice. replace (minute * 12 + 12 - minute * 12)%nat with 12%nat by lia.
  destruct (Nat.ltb_spec minute k) as [L | L].
  - rewrite drop_app_le by (rewrite length_replicate; lia).
    rewrite drop_replicate, take_app_le by (rewrite length_replicate; lia).
    rewrite take_replicate. f_equal. lia.
  - rewrite drop_app_ge by (rewrite length_replicate; lia).
    rewrite length_replicate. now rewrite skipn_map, firstn_map.
Qed.

Lemma rows_after_series g n d name a :
  rows_after g n d -> name ∈ series_names -> d !! name = Some a ->
  exists r : list float, a = g ++ map Some r /\ length r = n.
Proof.
  intros (r1 & r2 & r3 & r4 & (A1 & A2 & A3 & A4) & L1 & L2 & L3 & L4 & _) I E.
  unfold series_names in I.
  repeat (apply elem_of_cons in I as [-> | I]);
    [exists r1 | exists r2 | exists r3 | exists r4 | by apply elem_of_nil in I];
    split; congruence.
Qed.

(** X8. The graphs of a loaded hour never raise. For every minute and every
    one of the four series of an hour loaded from its metadata frame and data
    frames of the metrics1 shape, [SvgGraph] on the minute's slice returns
    without an exception, and it renders nothing for each minute that lies
    in the leading gap. *)
Theorem loaded_hour_graphs_never_raise (timestamp batch_timestamp : Z)
    (frames : list (list (list json))) (s0 : load)
    (name category : string) (a : list slot) (minute : nat) :
  0 <= batch_timestamp - timestamp < 60000 * 357913942 ->
  forallb sample_shape (concat frames) = true ->
  name ∈ series_names ->
  data (run_messages timestamp (Meta batch_timestamp :: map Data frames) s0)
    !! name = Some a ->
  (exists o, SvgGraph category (slice a (minute * 12) (minute * 12 + 12)) = Ok o) /\
  (Z.of_nat minute * 60000 + 60000 <= batch_timestamp - timestamp ->
   SvgGraph category (slice a (minute * 12) (minute * 12 + 12)) = Ok None).
Proof.
  intros B W I E.
  destruct (rows_after_series _ _ _ _ _ (loaded_rows _ _ frames s0 B W) I E)
    as (r & -> & _).
  rewrite gap_minutes_multiple, slice_rows.
  destruct (Nat.ltb_spec minute (Z.to_nat (gap_ticks timestamp batch_timestamp / 12)))
    as [L | L].
  - split; [exists None; reflexivity | reflexivity].
  - split.
    + destruct (SvgGraph_numbers category
                  (take 12 (drop (minute * 12
                     - 12 * Z.to_nat (gap_ticks timestamp batch_timestamp / 12)) r)))
        as [g G].
      rewrite G. eauto.
    + intros G. exfalso. unfold gap_ticks in L.
      assert (Z.of_nat minute + 1 <= (batch_timestamp - timestamp) / 5000 / 12).
      { Z.div_mod_to_equations. lia. }
      lia.
Qed.

Lemma loaded_hour_graphs_never_raise_witness :
  SvgGraph "saturation"
    (slice (replicate 12 None ++ [Some 0.12%float; Some 0.12%float]) (0 * 12) (0 * 12 + 12))
  = Ok None.
Proof.
  refine (proj2 (loaded_hour_graphs_never_raise example_hour (example_hour + 75000)
                   example_frames new_load "sat_cpu" "saturation" _ 0 _ eq_refl _ eq_refl) _).
  - vm_compute. split; [discriminate | reflexivity].
  - unfold series_names. apply elem_of_cons; right. apply elem_of_cons; now left.
  - vm_compute. discriminate.
Defined.

(** ** [MetricsHour] *)

Lemma for_each_from_pushes {A B} (l : list A) (body : A -> nat -> M (list B) unit)
    (f : A -> list B) i g :
  (forall x j g, body x j g = (Ok tt, g ++ f x)) ->
  for_each_from i l body g = (Ok tt, g ++ concat (map f l)).
Proof.
  intros Hb. revert i g. induction l as [| x t IH]; intros i g; simpl.
  - now rewrite app_nil_r.
  - rewrite (bind_ok _ _ _ _ _ (Hb x i g)), IH. now rewrite app_assoc.
Qed.

Lemma MetricsHour_graphs_allocated d a1 a2 a3 a4 g :
  allocated d a1 a2 a3 a4 ->
  MetricsHour_graphs d g
  = (Ok tt, g ++ concat (map (minute_graphs a1 a2 a3 a4) (seq 0 60))).
Proof.
  intros (E1 & E2 & E3 & E4). unfold MetricsHour_graphs, for_each.
  apply for_each_from_pushes. intros minute j g'. cbn [for_each_from].
  change ("use_" +:+ "cpu")%string with "use_cpu"%string.
  change ("sat_" +:+ "cpu")%string with "sat_cpu"%string.
  change ("use_" +:+ "memory")%string with "use_memory"%string.
  change ("sat_" +:+ "memory")%string with "sat_memory"%string.
  rewrite E1, E2, E3, E4. unfold bind, push_graph, ret. simpl.
  now rewrite <- app_assoc.
Qed.

Lemma MetricsHour_graphs_missing d name g :
  name ∈ series_names -> d !! name = None ->
  fst (MetricsHour_graphs d g) = Throw TypeError.
Proof.
  intros I E. unfold MetricsHour_graphs, for_each.
  change (seq 0 60) with (0%nat :: seq 1 59). cbn [for_each_from].
  change ("use_" +:+ "cpu")%string with "use_cpu"%string.
  change ("sat_" +:+ "cpu")%string with "sat_cpu"%string.
  change ("use_" +:+ "memory")%string with "use_memory"%string.
  change ("sat_" +:+ "memory")%string with "sat_memory"%string.
  unfold series_names in I. unfold bind, push_graph, throw, ret.
  repeat (apply elem_of_cons in I as [-> | I]); [..| by apply elem_of_nil in I];
    rewrite ?E;
    repeat match goal with
           | |- context [match ?d !! ?k with _ => _ end] =>
               destruct (d !! k) eqn:?; simpl; try congruence
           end; try reflexivity.
Qed.

Lemma minute_graphs_length a1 a2 a3 a4 (l : list nat) :
  length (concat (map (minute_graphs a1 a2 a3 a4) l)) = (2 * length l)%nat.
Proof. induction l as [| m t IH]; simpl; [reflexivity | rewrite IH; lia]. Qed.

Lemma MetricsHour_allocated startTime d a1 a2 a3 a4 :
  allocated d a1 a2 a3 a4 ->
  MetricsHour startTime (Some d)
  = Ok (Some (spike_scan startTime 0 0 a4,
              concat (map (minute_graphs a1 a2 a3 a4) (seq 0 60)))).
Proof.
  intros A. unfold MetricsHour.
  rewrite (MetricsHour_graphs_allocated d _ _ _ _ [] A).
  destruct A as (_ & _ & _ & E4). now rewrite E4.
Qed.

(** X9. [MetricsHour] shows nothing without data. With the four series
    present it returns the spike events of memory saturation and 120 graphs,
    a CPU and a memory graph for each of the 60 minutes in order, each built
    from the minute's 12-entry slices of its two series. If [data] lacks one
    of the four series it raises a TypeError. *)
Theorem MetricsHour_shows (startTime : Z) (d : hour_data) :
  MetricsHour startTime None = Ok None /\
  (forall a1 a2 a3 a4, allocated d a1 a2 a3 a4 ->
     MetricsHour startTime (Some d)
     = Ok (Some (spike_scan startTime 0 0 a4,
                 concat (map (minute_graphs a1 a2 a3 a4) (seq 0 60)))) /\
     length (concat (map (minute_graphs a1 a2 a3 a4) (seq 0 60))) = 120%nat) /\
  (forall name, name ∈ series_names -> d !! name = None ->
     MetricsHour startTime (Some d) = Throw TypeError).
Proof.
  split; [reflexivity|]. split.
  - intros a1 a2 a3 a4 A. split; [|now rewrite minute_graphs_length].
    now apply MetricsHour_allocated.
  - intros name I E. unfold MetricsHour.
    pose proof (MetricsHour_graphs_missing d name [] I E) as T.
    destruct (MetricsHour_graphs d []) as [[[]|e] graphs]; simpl in T;
      [discriminate | congruence].
Qed.

(** The events of [MetricsHour] are those of [MetricsHour_events]. *)
Lemma MetricsHour_events_agree startTime d a1 a2 a3 a4 :
  allocated d a1 a2 a3 a4 ->
  MetricsHour_events startTime (Some d) = Ok (Some (spike_scan startTime 0 0 a4)).
Proof.
  intros (E1 & E2 & E3 & E4). unfold MetricsHour_events.
  now rewrite E1, E2, E3, E4.
Qed.

(** ** The spike scan *)

Lemma spike_ticks_bounds i prev_val a t :
  t ∈ spike_ticks i prev_val a -> (i <= t < i + length a)%nat.
Proof.
  revert i prev_val. induction a as [| [v|] u IH]; intros i prev_val I; simpl in *.
  - by apply elem_of_nil in I.
  - apply elem_of_app in I as [I | I].
    + destruct (0.25 <? v - prev_val)%float; [|by apply elem_of_nil in I].
      apply list_elem_of_singleton in I. lia.
    + apply IH in I. lia.
  - apply IH in I. lia.
Qed.

Lemma spike_ticks_sorted i prev_val a :
  StronglySorted lt (spike_ticks i prev_val a).
Proof.
  revert i prev_val. induction a as [| [v|] u IH]; intros i prev_val; simpl.
  - constructor.
  - destruct (0.25 <? v - prev_val)%float; simpl; [|apply IH].
    constructor; [apply IH|].
    apply Forall_forall. intros t I. apply spike_ticks_bounds in I. lia.
  - apply IH.
Qed.

Lemma spike_ticks_count i prev_val a :
  (length (spike_ticks i prev_val a) <= length (omap id a))%nat.
Proof.
  revert i prev_val. induction a as [| [v|] u IH]; intros i prev_val; cbn.
  - lia.
  - rewrite length_app. specialize (IH (S i) v).
    destruct (0.25 <? v - prev_val)%float; cbn in *; lia.
  - apply IH.
Qed.

(** X10. Every event of the scan is a Swap event placed at the minute of a
    tick of the series: its minute is below 60 when the series has at most
    720 entries, its time is the start time plus that many minutes. Events
    come in the order of their ticks, so their minutes never decrease, and
    there are at most as many events as slots with data. *)
Theorem spike_scan_events (startTime : Z) (prev_val : float) (a : list slot) :
  (forall sp, sp ∈ spike_scan startTime 0 prev_val a ->
     sp_label sp = "Swap"%string /\
     sp_time sp = startTime + Z.of_nat (sp_minute sp) * 60000 /\
     (sp_minute sp * 12 < length a)%nat /\
     ((length a <= 720)%nat -> (sp_minute sp < 60)%nat)) /\
  StronglySorted le (map sp_minute (spike_scan startTime 0 prev_val a)) /\
  (length (spike_scan startTime 0 prev_val a) <= length (omap id a))%nat.
Proof.
  rewrite spike_scan_ticks. split; [|split].
  - intros sp I. apply list_elem_of_In, in_map_iff in I as (t & <- & I).
    apply list_elem_of_In, spike_ticks_bounds in I.
    unfold swap_spike; cbn [sp_label sp_time sp_minute].
    assert (t / 12 * 12 <= t)%nat by (rewrite Nat.mul_comm; apply Nat.Div0.mul_div_le).
    split; [reflexivity|]. split; [reflexivity|]. split; [lia|].
    intros L. apply Nat.Div0.div_lt_upper_bound. lia.
  - rewrite map_map. unfold swap_spike; cbn [sp_minute].
    pose proof (spike_ticks_sorted 0 prev_val a) as S.
    induction S as [| t l S IH F]; cbn [map]; constructor; [exact IH|].
    apply Forall_forall. intros m I.
    apply list_elem_of_In, in_map_iff in I as (u & <- & I).
    apply Nat.Div0.div_le_mono.
    apply list_elem_of_In in I.
    pose proof (proj1 (Forall_forall _ _) F u I). lia.
  - rewrite length_map. apply spike_ticks_count.
Qed.

Lemma level_threshold p v :
  level p -> level v -> (0.25 <? v - p)%float = (p <? v)%float.
Proof.
  intros [-> | [-> | ->]] [-> | [-> | ->]]; reflexivity.
Qed.

(** X11. On a series whose values are memory-saturation levels (0, 0.3 or
    1), the threshold of 0.25 fires exactly at the steps up: the scan emits
    at a slot if and only if its value is above the value of the previous
    slot with data (above [prev_val] for the first one). *)
Theorem spikes_are_level_rises (i : nat) (prev_val : float) (a : list slot) :
  level prev_val ->
  Forall (from_option level True) a ->
  spike_ticks i prev_val a = rises i prev_val a.
Proof.
  intros P F. revert i prev_val P.
  induction F as [| [v|] t V F IH]; intros i prev_val P; simpl.
  - reflexivity.
  - simpl in V. rewrite (level_threshold prev_val v P V). f_equal. now apply IH.
  - now apply IH.
Qed.

Lemma spikes_are_level_rises_witness :
  spike_ticks 0 0 [Some 0; None; Some 0.3; Some 1; Some 0.3; None; Some 1]%float
  = rises 0 0 [Some 0; None; Some 0.3; Some 1; Some 0.3; None; Some 1]%float.
Proof.
  apply spikes_are_level_rises.
  - left; reflexivity.
  - repeat (apply Forall_cons_2;
            [first [exact I | left; reflexivity | right; left; reflexivity
                   | right; right; reflexivity] |]).
    apply Forall_nil_2.
Defined.

(** X12. No-data slots neither fire nor reset [prev_val]: a leading block of
    no-data only shifts the ticks of the scan, and a series without data
    gives no event. *)
Theorem no_data_is_skipped (startTime : Z) (i n : nat) (prev_val : float)
    (a : list slot) :
  spike_scan startTime i prev_val (replicate n None ++ a)
  = spike_scan startTime (i + n) prev_val a /\
  spike_scan startTime i prev_val (replicate n None) = [].
Proof.
  assert (forall a, spike_scan startTime i prev_val (replicate n None ++ a)
                    = spike_scan startTime (i + n) prev_val a) as Shift.
  { clear a. intros a. revert i. induction n as [| n IH]; intros i; simpl.
    - now rewrite Nat.add_0_r.
    - rewrite IH. f_equal. lia. }
  split; [apply Shift|].
  rewrite <- (app_nil_r (replicate n None)). now rewrite Shift.
Qed.

(** ** The component *)

(** X13. The constructor starts at the hour that contains [now]: [start] is
    a whole number of hours and [now] lies in the hour from [start]. It
    opens two channels with fresh loads, for that hour and the one before,
    caches nothing, and a render at that point shows neither hour. *)
Theorem constructor_state (now : Z) :
  start (constructor now) mod MSEC_PER_H = 0 /\
  start (constructor now) <= now < start (constructor now) + MSEC_PER_H /\
  channels (constructor now)
  = [mkChannel (start (constructor now)) new_load false;
     mkChannel (start (constructor now) - MSEC_PER_H) new_load false] /\
  this_data (constructor now) = ∅ /\
  render (constructor now) = (Ok None, Ok None).
Proof.
  assert (start (constructor now) = now / MSEC_PER_H * MSEC_PER_H) as E
    by reflexivity.
  split; [|split; [|split; [reflexivity | split; reflexivity]]].
  - rewrite E. apply Z.mod_mul. discriminate.
  - rewrite E. unfold MSEC_PER_H. Z.div_mod_to_equations. lia.
Qed.

Lemma deliver_lookup k m h j :
  channels (deliver k m h) !! j
  = (if Nat.eqb k j then channel_after [m] else id) <$> channels h !! j.
Proof.
  unfold deliver; cbn [channels].
  destruct (Nat.eqb_spec k j) as [-> | N].
  - rewrite list_lookup_alter_eq. reflexivity.
  - rewrite list_lookup_alter_ne by exact N. now destruct (channels h !! j).
Qed.

Lemma messages_for_cons k j m t :
  messages_for k (Message j m :: t)
  = if Nat.eqb j k then m :: messages_for k t else messages_for k t.
Proof. unfold messages_for. cbn. now destruct (Nat.eqb j k). Qed.

(** Messages alone: every channel has processed its own messages in order,
    and nothing else has changed. *)
Lemma run_messages_only es h :
  forallb is_message es = true ->
  this_data (run h es) = this_data h /\
  errors (run h es) = errors h /\
  renders (run h es) = renders h /\
  start (run h es) = start h /\
  forall k, channels (run h es) !! k
            = channel_after (messages_for k es) <$> channels h !! k.
Proof.
  revert h. induction es as [| [j m | j c] t IH]; intros h W; simpl in W.
  - repeat split. intros k. unfold channel_after, run_messages. simpl.
    destruct (channels h !! k) as [[ts l cl]|]; reflexivity.
  - destruct (IH (deliver j m h) W) as (T & R & N & S & C).
    change (run h (Message j m :: t)) with (run (deliver j m h) t).
    rewrite T, R, N, S. repeat split. intros k.
    rewrite C, deliver_lookup, messages_for_cons.
    destruct (channels h !! k) as [[ts l cl]|]; [|reflexivity].
    destruct (Nat.eqb j k); reflexivity.
  - discriminate.
Qed.

(** X14. Messages never publish. After any run of message events, to any
    channels and in any order, the cache, the error reports and the render
    count are as before; each channel has processed exactly its own messages,
    in arrival order, so loads do not affect one another; and a component
    that has only received messages since its construction shows no hour. *)
Theorem messages_never_publish (h : history) (es : list event) (now : Z) :
  forallb is_message es = true ->
  this_data (run h es) = this_data h /\
  errors (run h es) = errors h /\
  renders (run h es) = renders h /\
  (forall k, channels (run h es) !! k
             = channel_after (messages_for k es) <$> channels h !! k) /\
  render (run (constructor now) es) = (Ok None, Ok None).
Proof.
  intros W.
  destruct (run_messages_only es h W) as (T & R & N & _ & C).
  destruct (run_messages_only es (constructor now) W) as (T' & _ & _ & S' & _).
  repeat split; try assumption.
  unfold render, cached. rewrite T', S'. reflexivity.
Qed.

Lemma messages_never_publish_witness :
  this_data (run example_history
               [Message 0 (Meta example_hour); Message 1 (Meta example_hour);
                Message 0 (Data [example_sample])])
  = this_data example_history.
Proof.
  exact (proj1 (messages_never_publish example_history
                  [Message 0 (Meta example_hour); Message 1 (Meta example_hour);
                   Message 0 (Data [example_sample])] 0 eq_refl)).
Defined.

(** X15. A close without a problem that comes before the metadata frame
    (the load's [data] has no [use_memory]) raises a TypeError when it reads
    the length: nothing is installed or reported, and [metrics.close()] is
    not reached, so the channel stays open. *)
Theorem close_before_metadata (h : history) (k : nat) (ch : channel)
    (c : close_message) :
  channels h !! k = Some ch ->
  has_problem c = false ->
  data (ch_load ch) !! "use_memory"%string = None ->
  on_close k c h = (Throw TypeError, h).
Proof.
  intros E P D. unfold on_close.
  rewrite (bind_ok get _ h h h) by reflexivity. rewrite E, P, D.
  reflexivity.
Qed.

Lemma close_before_metadata_witness :
  on_close 0 (mkClose None) example_history = (Throw TypeError, example_history).
Proof.
  exact (close_before_metadata example_history 0 _ (mkClose None)
           eq_refl eq_refl eq_refl).
Defined.

(** The channels after a close listener that ran to its end. *)
Lemma on_close_channels h k c ch :
  channels h !! k = Some ch ->
  fst (on_close k c h) = Ok tt ->
  channels (state_after (on_close k c h))
  = alter (fun ch => mkChannel (ch_timestamp ch) (ch_load ch) true) k (channels h).
Proof.
  intros E. unfold on_close.
  rewrite (bind_ok get _ h h h) by reflexivity. rewrite E.
  unfold bind, console_error, install, close_channel, throw, state_after.
  destruct (has_problem c); simpl; [reflexivity|].
  destruct (data (ch_load ch) !! "use_memory"%string) as [[| x t]|]; simpl;
    [reflexivity | reflexivity | discriminate].
Qed.

(** What a close without a problem does when the series are not empty. *)
Lemma on_close_installs (h : history) (k : nat) (ch : channel)
    (c : close_message) (x : slot) (t : list slot) :
  channels h !! k = Some ch ->
  has_problem c = false ->
  data (ch_load ch) !! "use_memory"%string = Some (x :: t) ->
  let h' := step h (Close k c) in
  cached h' (ch_timestamp ch) = Some (data (ch_load ch)) /\
  (forall timestamp, timestamp <> ch_timestamp ch ->
     cached h' timestamp = cached h timestamp) /\
  renders h' = S (renders h) /\
  errors h' = errors h /\
  ch_closed <$> channels h' !! k = Some true.
Proof.
  intros E P D h'. unfold h'. cbn [step].
  destruct (on_close_cases h k c ch E) as (L & _ & _ & Full).
  destruct (Full x t P D) as (T & R & N).
  split; [|split; [|split; [exact N | split; [exact R|]]]].
  - rewrite cached_alt, T, lookup_insert_eq. simpl. now rewrite L, E.
  - intros timestamp Ne. rewrite !cached_alt, T, lookup_insert_ne by congruence.
    destruct (this_data h !! timestamp) as [j|]; [apply L | reflexivity].
  - rewrite on_close_channels with (ch := ch); [| exact E |].
    + now rewrite list_lookup_alter_eq, E.
    + unfold on_close. rewrite (bind_ok get _ h h h) by reflexivity.
      rewrite E, P, D. reflexivity.
Qed.

(** X16. A close without a problem on a load whose series are not empty
    installs that load's buffer under its hour: the cache then returns the
    buffer for that hour, every other hour is cached as before, one render
    is requested, no error is reported and the channel is closed. *)
Theorem close_installs_buffer (h : history) (k : nat) (ch : channel)
    (c : close_message) (x : slot) (t : list slot) :
  channels h !! k = Some ch ->
  has_problem c = false ->
  data (ch_load ch) !! "use_memory"%string = Some (x :: t) ->
  let h' := step h (Close k c) in
  cached h' (ch_timestamp ch) = Some (data (ch_load ch)) /\
  (forall timestamp, timestamp <> ch_timestamp ch ->
     cached h' timestamp = cached h timestamp) /\
  renders h' = S (renders h) /\
  errors h' = errors h /\
  ch_closed <$> channels h' !! k = Some true.
Proof. apply on_close_installs. Qed.

Lemma close_installs_buffer_witness :
  cached (step (run example_history
                  [Message 0 (Meta example_hour); Message 0 (Data [example_sample])])
            (Close 0 (mkClose None)))
    example_hour
  = Some (data loaded_example).
Proof.
  exact (proj1 (close_installs_buffer
                  (run example_history
                     [Message 0 (Meta example_hour); Message 0 (Data [example_sample])])
                  0 (mkChannel example_hour loaded_example false) (mkClose None)
                  (Some 0.5%float) [] eq_refl eq_refl eq_refl)).
Defined.

Lemma on_close_start h k c : start (state_after (on_close k c h)) = start h.
Proof.
  unfold on_close. rewrite (bind_ok get _ h h h) by reflexivity.
  destruct (channels h !! k) as [ch|]; [|reflexivity].
  unfold bind, console_error, install, close_channel, throw, state_after.
  destruct (has_problem c); simpl; [reflexivity|].
  destruct (data (ch_load ch) !! "use_memory"%string) as [[| x t]|]; reflexivity.
Qed.

(** X17. When two loads of one hour both close with data, the cache holds
    the buffer of the one that closed last, and each close requests a
    render; closing one load twice counts as well. *)
Theorem last_close_wins (h : history) (k1 k2 : nat) (ch1 ch2 : channel)
    (c1 c2 : close_message) (x1 x2 : slot) (t1 t2 : list slot) :
  channels h !! k1 = Some ch1 ->
  channels h !! k2 = Some ch2 ->
  ch_timestamp ch1 = ch_timestamp ch2 ->
  has_problem c1 = false -> has_problem c2 = false ->
  data (ch_load ch1) !! "use_memory"%string = Some (x1 :: t1) ->
  data (ch_load ch2) !! "use_memory"%string = Some (x2 :: t2) ->
  let h' := run h [Close k1 c1; Close k2 c2] in
  this_data h' !! ch_timestamp ch2 = Some k2 /\
  cached h' (ch_timestamp ch2) = Some (data (ch_load ch2)) /\
  renders h' = S (S (renders h)).
Proof.
  intros E1 E2 Ts P1 P2 D1 D2 h'. unfold h', run. cbn [foldl].
  set (h1 := step h (Close k1 c1)).
  destruct (on_close_installs h k1 ch1 c1 x1 t1 E1 P1 D1) as (_ & _ & N1 & _ & _).
  fold h1 in N1.
  assert (exists ch2', channels h1 !! k2 = Some ch2' /\
            ch_timestamp ch2' = ch_timestamp ch2 /\ ch_load ch2' = ch_load ch2)
    as (ch2' & E2' & Ts' & L').
  { unfold h1. cbn [step]. rewrite on_close_channels with (ch := ch1); [| exact E1 |].
    - destruct (decide (k1 = k2)) as [-> | Ne].
      + rewrite list_lookup_alter_eq, E2. simpl. eauto.
      + rewrite list_lookup_alter_ne by exact Ne. eauto.
    - unfold on_close. rewrite (bind_ok get _ h h h) by reflexivity.
      rewrite E1, P1, D1. reflexivity. }
  rewrite <- L' in D2.
  destruct (on_close_installs h1 k2 ch2' c2 x2 t2 E2' P2 D2) as (C & _ & N2 & _ & _).
  destruct (on_close_cases h1 k2 c2 ch2' E2') as (_ & _ & _ & Full).
  destruct (Full x2 t2 P2 D2) as (T & _ & _).
  rewrite Ts', L' in *. cbn [step] in *.
  split; [now rewrite T, lookup_insert_eq|]. split; [exact C|]. now rewrite N2, N1.
Qed.

Lemma last_close_wins_witness :
  renders (run (run example_history
                  [Message 0 (Meta example_hour); Message 0 (Data [example_sample])])
             [Close 0 (mkClose None); Close 0 (mkClose None)])
  = 2%nat.
Proof.
  exact (proj2 (proj2 (last_close_wins
    (run example_history
       [Message 0 (Meta example_hour); Message 0 (Data [example_sample])])
    0 0 (mkChannel example_hour loaded_example false)
    (mkChannel example_hour loaded_example false) (mkClose None) (mkClose None)
    (Some 0.5%float) (Some 0.5%float) [] []
    eq_refl eq_refl eq_refl eq_refl eq_refl eq_refl eq_refl))).
Defined.

Lemma load_events_messages k batch_timestamp frames :
  forallb is_message
    (Message k (Meta batch_timestamp)
     :: map (fun batch => Message k (Data batch)) frames) = true /\
  messages_for k
    (Message k (Meta batch_timestamp)
     :: map (fun batch => Message k (Data batch)) frames)
  = Meta batch_timestamp :: map Data frames.
Proof.
  split.
  - simpl. induction frames as [| b t IH]; [reflexivity | exact IH].
  - rewrite messages_for_cons, Nat.eqb_refl. f_equal.
    induction frames as [| b t IH]; [reflexivity|].
    cbn [map]. now rewrite messages_for_cons, Nat.eqb_refl, IH.
Qed.

(** X18. A successful load, end to end. The component is constructed; the
    channel of the current hour delivers its metadata frame and data frames
    of the metrics1 shape with at least one sample, and closes without a
    problem. Then the hour is cached with four series of one length, the gap
    plus the number of samples; [render] shows that hour with the spike
    events of its memory saturation and 120 graphs, and nothing for the hour
    before; one render was requested and no error reported. *)
Theorem loaded_hour_is_shown (now batch_timestamp : Z)
    (frames : list (list (list json))) (c : close_message) :
  0 <= batch_timestamp - start (constructor now) < 60000 * 357913942 ->
  forallb sample_shape (concat frames) = true ->
  concat frames <> [] ->
  has_problem c = false ->
  let timestamp := start (constructor now) in
  let h := run (constructor now) (load_events 0 batch_timestamp frames c) in
  exists d a1 a2 a3 a4,
    cached h timestamp = Some d /\
    allocated d a1 a2 a3 a4 /\
    Forall (fun a => length a
                     = (Z.to_nat (gap_minutes timestamp batch_timestamp)
                        + length (concat frames))%nat) [a1; a2; a3; a4] /\
    render h
    = (Ok (Some (spike_scan timestamp 0 0 a4,
                 concat (map (minute_graphs a1 a2 a3 a4) (seq 0 60)))),
       Ok None) /\
    renders h = 1%nat /\ errors h = [].
Proof.
  intros B W Ne P timestamp h.
  destruct (load_events_messages 0 batch_timestamp frames) as (Wm & Mf).
  set (msgs := Message 0 (Meta batch_timestamp)
               :: map (fun batch => Message 0 (Data batch)) frames) in *.
  set (hm := run (constructor now) msgs).
  assert (h = step hm (Close 0 c)) as ->.
  { unfold h, load_events, run. fold msgs.
    change (msgs ++ [Close 0 c]) with (msgs ++ [Close 0 c]).
    rewrite (foldl_app step msgs [Close 0 c]). reflexivity. }
  destruct (run_messages_only msgs (constructor now) Wm) as (T & R & N & S & C).
  fold hm in T, R, N, S, C. specialize (C 0%nat). rewrite Mf in C.
  set (s := run_messages timestamp (Meta batch_timestamp :: map Data frames) new_load).
  assert (channels hm !! 0%nat = Some (mkChannel timestamp s false)) as C'
    by (rewrite C; reflexivity).
  clear C. rename C' into C.
  destruct (loaded_rows timestamp batch_timestamp frames new_load B W)
    as (r1 & r2 & r3 & r4 & A & L1 & L2 & L3 & L4 & _).
  fold s in A.
  assert (exists x t, data s !! "use_memory"%string = Some (x :: t)) as (x & t & D).
  { destruct A as (_ & _ & A3 & _). rewrite A3.
    destruct r3 as [| y r3].
    - destruct (concat frames); [contradiction | discriminate].
    - destruct (replicate (Z.to_nat (gap_minutes timestamp batch_timestamp)) None);
        simpl; eauto. }
  destruct (on_close_installs hm 0 _ c x t C P D) as (Ca & Other & Nr & Er & _).
  cbn [ch_timestamp ch_load] in Ca, Other.
  exists (data s). do 4 eexists.
  split; [exact Ca|]. split; [exact A|]. split.
  - repeat (apply Forall_cons_2; [rewrite length_app, length_replicate, length_map; lia|]).
    apply Forall_nil_2.
  - split; [|split; [rewrite Nr, N; reflexivity | rewrite Er, R; reflexivity]].
    unfold render. cbn [step]. rewrite on_close_start, S.
    fold timestamp. cbn [step] in Ca, Other. rewrite Ca.
    rewrite Other by (unfold MSEC_PER_H; lia).
    rewrite (MetricsHour_allocated timestamp (data s) _ _ _ _ A).
    unfold cached. rewrite T. reflexivity.
Qed.

Lemma loaded_hour_is_shown_witness :
  exists d a1 a2 a3 a4,
    cached (run example_history
              (load_events 0 (example_hour + 75000) example_frames (mkClose None)))
      example_hour = Some d /\
    allocated d a1 a2 a3 a4 /\
    Forall (fun a => length a = 14%nat) [a1; a2; a3; a4] /\
    render (run example_history
              (load_events 0 (example_hour + 75000) example_frames (mkClose None)))
    = (Ok (Some (spike_scan example_hour 0 0 a4,
                 concat (map (minute_graphs a1 a2 a3 a4) (seq 0 60)))),
       Ok None) /\
    renders (run example_history
               (load_events 0 (example_hour + 75000) example_frames (mkClose None)))
    = 1%nat /\
    errors (run example_history
              (load_events 0 (example_hour + 75000) example_frames (mkClose None)))
    = [].
Proof.
  refine (loaded_hour_is_shown (example_hour + 1800000) (example_hour + 75000)
            example_frames (mkClose None) _ eq_refl _ eq_refl).
  - vm_compute. split; [discriminate | reflexivity].
  - discriminate.
Defined.
